(** * Feedback Management API (main_app.py): model and properties

    The service keeps feedback records in one module-level Python dict,
    [feedbacks_db], keyed by UUID.  Five FastAPI endpoints create, list,
    read, update and delete records; request bodies are validated by
    pydantic models before a handler runs.

    The embedding follows the source:
    - the dict is an insertion-ordered association list ([PyDict]), which
      is what a Python dict is; [x in d], [d[k]], [d[k] = v], [del d[k]]
      and [d.values()] are separate operations, and the two that raise
      [KeyError] return [option];
    - a handler is a function of the world (the dict and the number of
      [uuid4()] calls made so far) returning an exception or a value
      together with the world it leaves behind, so a handler that raises
      after a mutation would be visible;
    - [uuid4()] and pydantic's [EmailStr] are library code.  They are
      parameters of the development: [random_uuid n] is the identifier the
      [n]-th call of [uuid4()] returns, [validate_email s] the normalised
      address [EmailStr] yields for [s], or [None] when it rejects [s];
    - a path parameter arrives as a parsed UUID and a body as a decoded
      JSON object; what a handler returns is the content of the response;
    - a Python [str] is a [string], one [ascii] per character. *)

From Stdlib Require Import NArith ZArith Ascii String List Lia.
From stdpp Require Import base option list strings gmap.

Local Open Scope string_scope.

(** A UUID is its 128-bit integer value ([UUID.int]). *)
Abbreviation UUID := N (only parsing).

(** ** Python dict keyed by UUID *)

Module PyDict.

Abbreviation dict V := (list (UUID * V)) (only parsing).

(** [k in d] *)
Fixpoint contains {V} (k : UUID) (d : dict V) : bool :=
  match d with
  | [] => false
  | (k', _) :: d' => if N.eqb k k' then true else contains k d'
  end.

(** [d[k]]; [None] stands for [KeyError]. *)
Fixpoint getitem {V} (k : UUID) (d : dict V) : option V :=
  match d with
  | [] => None
  | (k', v) :: d' => if N.eqb k k' then Some v else getitem k d'
  end.

(** [d[k] = v]: an existing key keeps its position, a new key goes last. *)
Fixpoint setitem {V} (k : UUID) (v : V) (d : dict V) : dict V :=
  match d with
  | [] => [(k, v)]
  | (k', v') :: d' =>
      if N.eqb k k' then (k, v) :: d' else (k', v') :: setitem k v d'
  end.

(** [del d[k]]; [None] stands for [KeyError]. *)
Fixpoint delitem {V} (k : UUID) (d : dict V) : option (dict V) :=
  match d with
  | [] => None
  | (k', v') :: d' =>
      if N.eqb k k' then Some d' else cons (k', v') <$> delitem k d'
  end.

(** [list(d.values())] *)
Definition values {V} (d : dict V) : list V := d.*2.

(** [len(d)] *)
Definition len {V} (d : dict V) : nat := length d.

(** Keys of a dict are pairwise distinct. *)
Definition wf {V} (d : dict V) : Prop := NoDup d.*1.

End PyDict.

(** ** Text helpers *)

(** [str(uuid)]: 32 lowercase hexadecimal digits grouped 8-4-4-4-12. *)
Definition hex_digit (n : N) : ascii :=
  match n with
  | 0 => "0" | 1 => "1" | 2 => "2" | 3 => "3" | 4 => "4" | 5 => "5"
  | 6 => "6" | 7 => "7" | 8 => "8" | 9 => "9" | 10 => "a" | 11 => "b"
  | 12 => "c" | 13 => "d" | 14 => "e" | _ => "f"
  end%N%char.

(** The [width] lowest hexadecimal digits of [n], most significant first. *)
Fixpoint hex_fixed (width : nat) (n : N) : string :=
  match width with
  | O => ""
  | S w =>
      String (hex_digit (N.land (N.shiftr n (4 * N.of_nat w)) 15)) (hex_fixed w n)
  end.

Definition UUID_str (u : UUID) : string :=
  hex_fixed 8 (N.shiftr u 96) ++ "-" ++ hex_fixed 4 (N.shiftr u 80) ++ "-" ++
  hex_fixed 4 (N.shiftr u 64) ++ "-" ++ hex_fixed 4 (N.shiftr u 48) ++ "-" ++
  hex_fixed 12 u.

(** [c * n] for a one-character string [c]. *)
Fixpoint str_repeat (c : ascii) (n : nat) : string :=
  match n with
  | O => ""
  | S n' => String c (str_repeat c n')
  end.

(** ** Request bodies and models *)

(** A decoded JSON value.  A request body is the decoded top-level object,
    a map from member names to values. *)
#[local] Set Warnings "-register-all".

Inductive json : Type :=
| JNull
| JBool (b : bool)
| JNum (n : Z)
| JStr (s : string)
| JArr (items : list json)
| JObj (members : list (string * json)).

(** The [type] of a pydantic error. *)
Inductive error_type : Type :=
| missing
| string_type
| string_too_short
| string_too_long
| value_error.

(** One entry of a pydantic [ValidationError]: what failed and on which
    field. *)
Record ErrorDetails : Type := mkErrorDetails {
  etype : error_type;
  loc : string
}.

(** [Feedback(FeedbackBase)].  An attribute of an instance holds a [str] or
    [None]: the constructor only produces [Some], [model_copy] can store
    [None]. *)
Module Feedback.
Record t : Type := mk {
  uuid : UUID;
  feedback_content : option string;
  email_address : option string
}.
End Feedback.

(** [FeedbackCreate(FeedbackBase)] *)
Module FeedbackCreate.
Record t : Type := mk {
  feedback_content : string;
  email_address : string
}.
End FeedbackCreate.

(** [FeedbackUpdate(BaseModel)]: both fields are [Optional] with default
    [None]; [model_fields_set] holds the names the request supplied. *)
Module FeedbackUpdate.
Record t : Type := mk {
  feedback_content : option string;
  email_address : option string;
  model_fields_set : gset string
}.
End FeedbackUpdate.

(** ** The world a handler runs in *)

Record World : Type := mkWorld {
  feedbacks_db : PyDict.dict Feedback.t;
  uuid4_calls : nat
}.

Inductive exn : Type :=
| HTTPException (status_code : N) (detail : string)
| ValidationError (errors : list ErrorDetails)
| KeyError (key : UUID).

(** A handler either raises or returns, and leaves a world behind in both
    cases. *)
Definition handler (A : Type) : Type := World -> (exn + A) * World.

#[export] Instance handler_ret : MRet handler :=
  fun A a w => (inr a, w).

#[export] Instance handler_bind : MBind handler :=
  fun A B f c w =>
    match c w with
    | (inr a, w') => f a w'
    | (inl e, w') => (inl e, w')
    end.

Definition raise {A} (e : exn) : handler A := fun w => (inl e, w).

(** [for x in xs: body(x)] *)
Fixpoint for_each {A} (xs : list A) (body : A -> handler unit) : handler unit :=
  match xs with
  | [] => mret tt
  | x :: xs' => body x;; for_each xs' body
  end.

(** [k in feedbacks_db] *)
Definition db_contains (k : UUID) : handler bool :=
  fun w => (inr (PyDict.contains k (feedbacks_db w)), w).

(** [feedbacks_db[k]] *)
Definition db_getitem (k : UUID) : handler Feedback.t :=
  fun w =>
    match PyDict.getitem k (feedbacks_db w) with
    | Some v => (inr v, w)
    | None => (inl (KeyError k), w)
    end.

(** [feedbacks_db[k] = v] *)
Definition db_setitem (k : UUID) (v : Feedback.t) : handler unit :=
  fun w =>
    (inr tt, {| feedbacks_db := PyDict.setitem k v (feedbacks_db w);
                uuid4_calls := uuid4_calls w |}).

(** [del feedbacks_db[k]] *)
Definition db_delitem (k : UUID) : handler unit :=
  fun w =>
    match PyDict.delitem k (feedbacks_db w) with
    | Some d => (inr tt, {| feedbacks_db := d; uuid4_calls := uuid4_calls w |})
    | None => (inl (KeyError k), w)
    end.

(** [list(feedbacks_db.values())] *)
Definition db_values : handler (list Feedback.t) :=
  fun w => (inr (PyDict.values (feedbacks_db w)), w).

(** [fastapi.status] *)
Definition HTTP_200_OK : N := 200.
Definition HTTP_201_CREATED : N := 201.
Definition HTTP_204_NO_CONTENT : N := 204.
Definition HTTP_400_BAD_REQUEST : N := 400.
Definition HTTP_404_NOT_FOUND : N := 404.
Definition HTTP_422_UNPROCESSABLE_ENTITY : N := 422.
Definition HTTP_500_INTERNAL_SERVER_ERROR : N := 500.

(** ** Sample instances of the two library parameters

    Used to run the model on concrete requests. *)

(** Number of occurrences of [c] in [s]. *)
Fixpoint str_count (c : ascii) (s : string) : nat :=
  match s with
  | EmptyString => O
  | String c' s' => (if Ascii.eqb c c' then 1 else 0) + str_count c s'
  end.

(** The text before the first [c], and the text after it. *)
Fixpoint str_partition (c : ascii) (s : string) : string * string :=
  match s with
  | EmptyString => (EmptyString, EmptyString)
  | String c' s' =>
      if Ascii.eqb c c' then (EmptyString, s')
      else let '(l, r) := str_partition c s' in (String c' l, r)
  end.

(** A plain address check: one [@], something before it, and a dotted
    domain after it.  Accepted addresses are returned as they are. *)
Definition sample_validate_email (s : string) : option string :=
  let '(local_part, domain) := str_partition "@" s in
  if Nat.eqb (str_count "@" s) 1
     && Nat.ltb 0 (String.length local_part)
     && Nat.ltb 0 (str_count "." domain)
     && Nat.eqb (str_count " " s) 0
  then Some s else None.

(** Version-4, variant-1 identifiers that differ from call to call. *)
Definition sample_uuid4 (n : nat) : UUID :=
  (0x123e4567e89b42d3a456426614174000 + N.of_nat n)%N.

(** A store with two records, after two draws. *)
Definition sample_world : World :=
  mkWorld
    [ (sample_uuid4 0,
       Feedback.mk (sample_uuid4 0) (Some "Great!") (Some "a@b.com"));
      (sample_uuid4 1,
       Feedback.mk (sample_uuid4 1) (Some "Fast delivery")
         (Some "sarah.smith@example.com")) ]
    2.

(** ** The application *)

Section FeedbackAPI.

(** [random_uuid n] is what the [n]-th call of [uuid4()] returns. *)
Variable random_uuid : nat -> UUID.

(** [validate_email s] is the normalised address pydantic's [EmailStr]
    produces for [s], or [None] when the address is rejected. *)
Variable validate_email : string -> option string.

(** [uuid4()] *)
Definition uuid4 : handler UUID :=
  fun w =>
    (inr (random_uuid (uuid4_calls w)),
     {| feedbacks_db := feedbacks_db w; uuid4_calls := S (uuid4_calls w) |}).

(** *** Field validation *)

(** [str] with [Field(min_length=.., max_length=..)] *)
Definition constrained_str (min_length max_length : nat) (field : string)
    (v : json) : list ErrorDetails + string :=
  match v with
  | JStr s =>
      if Nat.ltb (String.length s) min_length
      then inl [mkErrorDetails string_too_short field]
      else if Nat.ltb max_length (String.length s)
      then inl [mkErrorDetails string_too_long field]
      else inr s
  | _ => inl [mkErrorDetails string_type field]
  end.

(** [EmailStr]: the validated value is the normalised address. *)
Definition EmailStr (field : string) (v : json) : list ErrorDetails + string :=
  match v with
  | JStr s =>
      match validate_email s with
      | Some normalized => inr normalized
      | None => inl [mkErrorDetails value_error field]
      end
  | _ => inl [mkErrorDetails string_type field]
  end.

(** [Optional[T]]: [null] is accepted as [None], anything else goes to [T]. *)
Definition Optional {A} (inner : string -> json -> list ErrorDetails + A)
    (field : string) (v : json) : list ErrorDetails + option A :=
  match v with
  | JNull => inr None
  | _ => match inner field v with
         | inr a => inr (Some a)
         | inl errs => inl errs
         end
  end.

(** A field declared with [Field(...)]: it must be present. *)
Definition required {A} (inner : string -> json -> list ErrorDetails + A)
    (field : string) (body : gmap string json) : list ErrorDetails + A :=
  match body !! field with
  | Some v => inner field v
  | None => inl [mkErrorDetails missing field]
  end.

(** A field declared with [Field(None, ...)]: the default [None] is used,
    unvalidated, when the field is absent. *)
Definition defaulted {A} (inner : string -> json -> list ErrorDetails + option A)
    (field : string) (body : gmap string json) : list ErrorDetails + option A :=
  match body !! field with
  | Some v => inner field v
  | None => inr None
  end.

Definition errors_of {A} (r : list ErrorDetails + A) : list ErrorDetails :=
  match r with
  | inl errs => errs
  | inr _ => []
  end.

(** Validation of a request body against [FeedbackCreate]; all field errors
    are collected. *)
Definition FeedbackCreate_validate (body : gmap string json)
    : list ErrorDetails + FeedbackCreate.t :=
  let content := required (constrained_str 1 1000) "feedback_content" body in
  let email := required EmailStr "email_address" body in
  match content, email with
  | inr c, inr e => inr (FeedbackCreate.mk c e)
  | _, _ => inl (errors_of content ++ errors_of email)%list
  end.

(** The names among [fields] that the body supplies. *)
Definition supplied (fields : list string) (body : gmap string json) : gset string :=
  list_to_set (filter (fun field => is_Some (body !! field)) fields).

(** Validation of a request body against [FeedbackUpdate]. *)
Definition FeedbackUpdate_validate (body : gmap string json)
    : list ErrorDetails + FeedbackUpdate.t :=
  let content :=
    defaulted (Optional (constrained_str 1 1000)) "feedback_content" body in
  let email := defaulted (Optional EmailStr) "email_address" body in
  match content, email with
  | inr c, inr e =>
      inr (FeedbackUpdate.mk c e
             (supplied ["feedback_content"; "email_address"] body))
  | _, _ => inl (errors_of content ++ errors_of email)%list
  end.

(** [Feedback(uuid=.., feedback_content=.., email_address=..)] called with a
    UUID and two [str] values; the same field constraints apply. *)
Definition Feedback_init (uuid : UUID) (feedback_content email_address : string)
    : handler Feedback.t :=
  let content := constrained_str 1 1000 "feedback_content" (JStr feedback_content) in
  let email := EmailStr "email_address" (JStr email_address) in
  match content, email with
  | inr c, inr e => mret (Feedback.mk uuid (Some c) (Some e))
  | _, _ => raise (ValidationError (errors_of content ++ errors_of email)%list)
  end.

(** [feedback_update.model_dump(exclude_unset=True)]: the supplied fields,
    in declaration order, with their values. *)
Definition model_dump_exclude_unset (m : FeedbackUpdate.t)
    : list (string * option string) :=
  ((if bool_decide ("feedback_content" ∈ FeedbackUpdate.model_fields_set m)
    then [("feedback_content", FeedbackUpdate.feedback_content m)] else [])
   ++
   (if bool_decide ("email_address" ∈ FeedbackUpdate.model_fields_set m)
    then [("email_address", FeedbackUpdate.email_address m)] else []))%list.

(** [stored_feedback.model_copy(update=update_data)]: a copy whose
    attributes named in [update] are overwritten; nothing is validated.
    [update] comes from a [FeedbackUpdate] dump, so it only has the two keys
    below. *)
Definition model_copy (m : Feedback.t) (update : list (string * option string))
    : Feedback.t :=
  foldl
    (fun copied '(k, v) =>
       if String.eqb k "feedback_content"
       then Feedback.mk (Feedback.uuid copied) v (Feedback.email_address copied)
       else if String.eqb k "email_address"
       then Feedback.mk (Feedback.uuid copied) (Feedback.feedback_content copied) v
       else copied)
    m update.

(** *** Seed data *)

(** The ten [{"feedback_content": .., "email_address": ..}] literals, as
    pairs in that order. *)
Definition dummy_feedbacks : list (string * string) :=
  [ ("Excellent service! Very satisfied with the product quality.",
     "john.doe@example.com");
    ("Fast delivery and great customer support. Highly recommend!",
     "sarah.smith@example.com");
    ("The product met my expectations. Good value for money.",
     "mike.johnson@example.com");
    ("Outstanding experience! Will definitely order again.",
     "emily.brown@example.com");
    ("Good quality but shipping took longer than expected.",
     "david.wilson@example.com");
    ("Amazing customer service team. They resolved my issue quickly.",
     "lisa.garcia@example.com");
    ("Product works as described. Very happy with my purchase.",
     "robert.martinez@example.com");
    ("Great experience overall. The website is easy to navigate.",
     "jennifer.davis@example.com");
    ("Impressed with the quality and attention to detail.",
     "william.rodriguez@example.com");
    ("Fantastic product! Exceeded my expectations in every way.",
     "amanda.miller@example.com") ].

Definition initialize_dummy_data : handler unit :=
  for_each dummy_feedbacks (fun dummy =>
    feedback_uuid ← uuid4;
    feedback ← Feedback_init feedback_uuid dummy.1 dummy.2;
    db_setitem feedback_uuid feedback).

(** The module body: [feedbacks_db = {}], then [initialize_dummy_data()].
    An exception there aborts the import, and no application exists. *)
Definition module_import : option World :=
  match initialize_dummy_data {| feedbacks_db := []; uuid4_calls := 0 |} with
  | (inr _, w) => Some w
  | (inl _, _) => None
  end.

(** *** Endpoints *)

Definition not_found {A} (feedback_uuid : UUID) : handler A :=
  raise (HTTPException HTTP_404_NOT_FOUND
           ("Feedback with UUID " ++ UUID_str feedback_uuid ++ " not found")).

Definition create_feedback (feedback : FeedbackCreate.t) : handler Feedback.t :=
  feedback_uuid ← uuid4;
  new_feedback ← Feedback_init feedback_uuid
                   (FeedbackCreate.feedback_content feedback)
                   (FeedbackCreate.email_address feedback);
  db_setitem feedback_uuid new_feedback;;
  mret new_feedback.

Definition get_all_feedbacks : handler (list Feedback.t) :=
  db_values.

Definition get_feedback (feedback_uuid : UUID) : handler Feedback.t :=
  present ← db_contains feedback_uuid;
  if negb present then not_found feedback_uuid
  else db_getitem feedback_uuid.

Definition update_feedback (feedback_uuid : UUID)
    (feedback_update : FeedbackUpdate.t) : handler Feedback.t :=
  present ← db_contains feedback_uuid;
  if negb present then not_found feedback_uuid
  else
    stored_feedback ← db_getitem feedback_uuid;
    let update_data := model_dump_exclude_unset feedback_update in
    match update_data with
    | [] =>
        raise (HTTPException HTTP_400_BAD_REQUEST
                 "At least one field must be provided for update")
    | _ :: _ =>
        let updated_feedback := model_copy stored_feedback update_data in
        db_setitem feedback_uuid updated_feedback;;
        mret updated_feedback
    end.

Definition delete_feedback (feedback_uuid : UUID) : handler unit :=
  present ← db_contains feedback_uuid;
  if negb present then not_found feedback_uuid
  else db_delitem feedback_uuid.

Definition root : handler (list (string * string)) :=
  mret [ ("message", "Welcome to Feedback Management API");
         ("docs", "/docs");
         ("redoc", "/redoc") ].

(** *** Routing *)

Inductive request : Type :=
| POST_feedbacks (body : gmap string json)
| GET_feedbacks
| GET_feedback (feedback_uuid : UUID)
| PUT_feedback (feedback_uuid : UUID) (body : gmap string json)
| DELETE_feedback (feedback_uuid : UUID)
| GET_root.

Inductive content : Type :=
| FeedbackContent (feedback : Feedback.t)
| FeedbackListContent (feedbacks : list Feedback.t)
| InfoContent (info : list (string * string))
| NoContent
| DetailContent (detail : string)
| ErrorsContent (errors : list ErrorDetails)
| InternalServerError.

Record Response : Type := mkResponse {
  status : N;
  payload : content
}.

(** What the framework sends for an exception that leaves a handler:
    an [HTTPException] carries its own status and detail, anything else is
    a server error. *)
Definition exception_response (e : exn) : Response :=
  match e with
  | HTTPException status_code detail => mkResponse status_code (DetailContent detail)
  | ValidationError _ | KeyError _ =>
      mkResponse HTTP_500_INTERNAL_SERVER_ERROR InternalServerError
  end.

(** Run a handler; on return answer with the route's [status_code]. *)
Definition respond {A} (status_code : N) (render : A -> content)
    (h : handler A) (w : World) : Response * World :=
  match h w with
  | (inr a, w') => (mkResponse status_code (render a), w')
  | (inl e, w') => (exception_response e, w')
  end.

(** A body that fails its model never reaches the handler. *)
Definition unprocessable (errors : list ErrorDetails) (w : World)
    : Response * World :=
  (mkResponse HTTP_422_UNPROCESSABLE_ENTITY (ErrorsContent errors), w).

Definition app (r : request) (w : World) : Response * World :=
  match r with
  | POST_feedbacks body =>
      match FeedbackCreate_validate body with
      | inr feedback =>
          respond HTTP_201_CREATED FeedbackContent (create_feedback feedback) w
      | inl errors => unprocessable errors w
      end
  | GET_feedbacks =>
      respond HTTP_200_OK FeedbackListContent get_all_feedbacks w
  | GET_feedback feedback_uuid =>
      respond HTTP_200_OK FeedbackContent (get_feedback feedback_uuid) w
  | PUT_feedback feedback_uuid body =>
      match FeedbackUpdate_validate body with
      | inr feedback_update =>
          respond HTTP_200_OK FeedbackContent
            (update_feedback feedback_uuid feedback_update) w
      | inl errors => unprocessable errors w
      end
  | DELETE_feedback feedback_uuid =>
      respond HTTP_204_NO_CONTENT (fun _ => NoContent)
        (delete_feedback feedback_uuid) w
  | GET_root => respond HTTP_200_OK InfoContent root w
  end.

(** Requests are served one after the other. *)
Fixpoint serve (rs : list request) (w : World) : list Response * World :=
  match rs with
  | [] => ([], w)
  | r :: rs' =>
      let '(resp, w') := app r w in
      let '(resps, w'') := serve rs' w' in
      (resp :: resps, w'')
  end.

(** *** The data-model invariant *)

Definition valid_content (c : option string) : bool :=
  match c with
  | Some s => Nat.leb 1 (String.length s) && Nat.leb (String.length s) 1000
  | None => false
  end.

Definition valid_email (e : option string) : bool :=
  match e with
  | Some s => bool_decide (is_Some (validate_email s))
  | None => false
  end.

Definition valid_feedback (f : Feedback.t) : bool :=
  valid_content (Feedback.feedback_content f)
  && valid_email (Feedback.email_address f).

Definition store_valid (w : World) : Prop :=
  Forall (fun f => valid_feedback f = true) (PyDict.values (feedbacks_db w)).

Definition is_error (r : Response) : bool := N.leb 400 (status r).

Definition is_null (member : option json) : bool :=
  match member with
  | Some JNull => true
  | _ => false
  end.

(** An update whose body gives [null] for one of the two fields. *)
Definition sets_null (r : request) : bool :=
  match r with
  | PUT_feedback _ body =>
      is_null (body !! "feedback_content") || is_null (body !! "email_address")
  | _ => false
  end.

(** Lower-case form of a text, for comparing messages up to case. *)
Definition ascii_lower (c : ascii) : ascii :=
  let n := N_of_ascii c in
  if (N.leb 65 n && N.leb n 90)%N then ascii_of_N (n + 32) else c.

Fixpoint str_lower (s : string) : string :=
  match s with
  | EmptyString => EmptyString
  | String c s' => String (ascii_lower c) (str_lower s')
  end.

(** An address check that normalises: an accepted address comes back with
    its domain in lower case, the local part as it was. *)
Definition normalizing_validate_email (s : string) : option string :=
  let '(local_part, domain) := str_partition "@" s in
  if Nat.eqb (str_count "@" s) 1
     && Nat.ltb 0 (String.length local_part)
     && Nat.ltb 0 (str_count "." domain)
     && Nat.eqb (str_count " " s) 0
  then Some (local_part ++ "@" ++ str_lower domain) else None.

(** *** Identifiers in the store *)

(** Every binding holds a record whose [uuid] is the key it is stored
    under. *)
Definition keys_match (d : PyDict.dict Feedback.t) : Prop :=
  Forall (fun binding => Feedback.uuid binding.2 = binding.1) d.

(** Keys are pairwise distinct and agree with the records' [uuid]. *)
Definition store_consistent (w : World) : Prop :=
  PyDict.wf (feedbacks_db w) /\ keys_match (feedbacks_db w).

(** The two field names of the models. *)
Definition model_fields : list string := ["feedback_content"; "email_address"].

(** ** Facts about the dict *)

Local Open Scope list_scope.

Section dict_facts.
Context {V : Type}.
Implicit Types (k : UUID) (v : V) (d : PyDict.dict V).

Lemma dict_contains_keys k d : PyDict.contains k d = true <-> k ∈ d.*1.
Proof.
  induction d as [|[k' v'] d IH]; simpl.
  - split; [discriminate | intros H; inversion H].
  - destruct (N.eqb_spec k k') as [->|Hne].
    + split; [intros _; left | reflexivity].
    + rewrite IH. split; [intros H; right; exact H |].
      intros H. inversion H; subst; [congruence | assumption].
Qed.

Lemma dict_contains_getitem k d :
  PyDict.contains k d = true <-> is_Some (PyDict.getitem k d).
Proof.
  induction d as [|[k' v'] d IH]; simpl.
  - split; [discriminate | intros [x Hx]; discriminate].
  - destruct (N.eqb k k'); [split; eauto | exact IH].
Qed.

Lemma dict_getitem_contains k d v :
  PyDict.getitem k d = Some v -> PyDict.contains k d = true.
Proof. intros H. apply dict_contains_getitem. eauto. Qed.

Lemma dict_not_contains_getitem k d :
  PyDict.contains k d = false -> PyDict.getitem k d = None.
Proof.
  intros H. destruct (PyDict.getitem k d) eqn:E; [|reflexivity].
  apply dict_getitem_contains in E. congruence.
Qed.

Lemma dict_getitem_setitem_eq k v d :
  PyDict.getitem k (PyDict.setitem k v d) = Some v.
Proof.
  induction d as [|[k' v'] d IH]; simpl.
  - rewrite N.eqb_refl. reflexivity.
  - destruct (N.eqb k k') eqn:E; simpl; rewrite ?N.eqb_refl, ?E; auto.
Qed.

Lemma dict_getitem_setitem_ne k k' v d :
  k <> k' -> PyDict.getitem k' (PyDict.setitem k v d) = PyDict.getitem k' d.
Proof.
  intros Hne. induction d as [|[k0 v0] d IH]; simpl.
  - destruct (N.eqb_spec k' k); [congruence | reflexivity].
  - destruct (N.eqb_spec k k0) as [->|Hk]; simpl.
    + destruct (N.eqb_spec k' k0); [congruence | reflexivity].
    + destruct (N.eqb k' k0); [reflexivity | exact IH].
Qed.

Lemma dict_contains_setitem k k' v d :
  PyDict.contains k' (PyDict.setitem k v d)
  = (N.eqb k' k || PyDict.contains k' d).
Proof.
  induction d as [|[k0 v0] d IH]; simpl.
  - destruct (N.eqb k' k); reflexivity.
  - destruct (N.eqb_spec k k0) as [->|Hk]; simpl.
    + destruct (N.eqb k' k0); reflexivity.
    + rewrite IH. destruct (N.eqb_spec k' k0) as [->|]; [|reflexivity].
      rewrite orb_true_r. reflexivity.
Qed.

(** Assigning to a new key appends the binding. *)
Lemma dict_setitem_new k v d :
  PyDict.contains k d = false -> PyDict.setitem k v d = d ++ [(k, v)].
Proof.
  induction d as [|[k' v'] d IH]; simpl; [reflexivity|].
  destruct (N.eqb k k'); [discriminate|]. intros H. rewrite IH; auto.
Qed.

(** Assigning to an existing key leaves the keys as they are. *)
Lemma dict_setitem_keys_old k v d :
  PyDict.contains k d = true -> (PyDict.setitem k v d).*1 = d.*1.
Proof.
  induction d as [|[k' v'] d IH]; simpl; [discriminate|].
  destruct (N.eqb_spec k k') as [->|Hne]; simpl; [reflexivity|].
  intros H. f_equal. apply IH, H.
Qed.

Lemma dict_len_setitem_new k v d :
  PyDict.contains k d = false ->
  PyDict.len (PyDict.setitem k v d) = S (PyDict.len d).
Proof.
  intros H. unfold PyDict.len. rewrite dict_setitem_new by exact H.
  rewrite length_app. simpl. lia.
Qed.

Lemma dict_len_setitem_old k v d :
  PyDict.contains k d = true ->
  PyDict.len (PyDict.setitem k v d) = PyDict.len d.
Proof.
  unfold PyDict.len.
  induction d as [|[k' v'] d IH]; simpl; [discriminate|].
  destruct (N.eqb k k'); simpl; [reflexivity|].
  intros H. rewrite IH; auto.
Qed.

Lemma dict_wf_setitem k v d : PyDict.wf d -> PyDict.wf (PyDict.setitem k v d).
Proof.
  unfold PyDict.wf. intros Hwf.
  destruct (PyDict.contains k d) eqn:E.
  - rewrite dict_setitem_keys_old by exact E. exact Hwf.
  - rewrite dict_setitem_new by exact E. rewrite fmap_app. simpl.
    apply NoDup_app. split; [exact Hwf|]. split.
    + intros x Hx Hin. apply list_elem_of_singleton in Hin. subst x.
      apply dict_contains_keys in Hx. congruence.
    + apply NoDup_singleton.
Qed.

Lemma dict_delitem_is_Some k d :
  PyDict.contains k d = true ->
  exists d', PyDict.delitem k d = Some d' /\ PyDict.len d = S (PyDict.len d').
Proof.
  induction d as [|[k' v'] d IH]; simpl; [discriminate|].
  destruct (N.eqb k k').
  - intros _. exists d. split; reflexivity.
  - intros H. destruct (IH H) as (d' & -> & Hlen). simpl.
    exists ((k', v') :: d'). split; [reflexivity|].
    unfold PyDict.len in *. simpl. lia.
Qed.

Lemma dict_delitem_None k d :
  PyDict.contains k d = false -> PyDict.delitem k d = None.
Proof.
  induction d as [|[k' v'] d IH]; simpl; [reflexivity|].
  destruct (N.eqb k k'); [discriminate|]. intros H. rewrite IH; auto.
Qed.

Lemma dict_delitem_keys k d d' :
  PyDict.delitem k d = Some d' ->
  forall k', k' ∈ d'.*1 -> k' ∈ d.*1.
Proof.
  revert d'. induction d as [|[k0 v0] d IH]; simpl; intros d' H; [discriminate|].
  destruct (N.eqb k k0).
  - injection H as <-. intros k' Hk'. right. exact Hk'.
  - destruct (PyDict.delitem k d) as [d0|]; [|discriminate].
    injection H as <-. simpl. intros k' Hk'.
    inversion Hk'; subst; [left | right; eapply IH; eauto].
Qed.

Lemma dict_wf_delitem k d d' :
  PyDict.wf d -> PyDict.delitem k d = Some d' -> PyDict.wf d'.
Proof.
  unfold PyDict.wf. revert d'.
  induction d as [|[k0 v0] d IH]; simpl; intros d' Hwf H; [discriminate|].
  apply NoDup_cons in Hwf as [Hk0 Hwf].
  destruct (N.eqb k k0).
  - injection H as <-. exact Hwf.
  - destruct (PyDict.delitem k d) as [d0|] eqn:E; [|discriminate].
    injection H as <-. simpl. apply NoDup_cons. split; [|eauto].
    intros Hin. apply Hk0. eapply dict_delitem_keys; eauto.
Qed.

(** With distinct keys, a deleted key is gone. *)
Lemma dict_contains_delitem k d d' :
  PyDict.wf d -> PyDict.delitem k d = Some d' -> PyDict.contains k d' = false.
Proof.
  unfold PyDict.wf. revert d'.
  induction d as [|[k0 v0] d IH]; simpl; intros d' Hwf H; [discriminate|].
  apply NoDup_cons in Hwf as [Hk0 Hwf].
  destruct (N.eqb_spec k k0) as [->|Hne].
  - injection H as <-.
    destruct (PyDict.contains k0 d) eqn:E; [|reflexivity].
    apply dict_contains_keys in E. contradiction.
  - destruct (PyDict.delitem k d) as [d0|] eqn:E; [|discriminate].
    injection H as <-. simpl.
    destruct (N.eqb_spec k k0); [contradiction | eauto].
Qed.

Lemma dict_getitem_delitem_ne k k' d d' :
  k <> k' -> PyDict.delitem k d = Some d' ->
  PyDict.getitem k' d' = PyDict.getitem k' d.
Proof.
  intros Hne. revert d'.
  induction d as [|[k0 v0] d IH]; simpl; intros d' H; [discriminate|].
  destruct (N.eqb_spec k k0) as [->|Hk].
  - injection H as <-. destruct (N.eqb_spec k' k0); [congruence | reflexivity].
  - destruct (PyDict.delitem k d) as [d0|] eqn:E; [|discriminate].
    injection H as <-. simpl. destruct (N.eqb k' k0); [reflexivity | eauto].
Qed.

Lemma dict_getitem_values k d v :
  PyDict.getitem k d = Some v -> v ∈ PyDict.values d.
Proof.
  unfold PyDict.values.
  induction d as [|[k0 v0] d IH]; simpl; [discriminate|].
  destruct (N.eqb k k0).
  - intros [= ->]. left.
  - intros H. right. auto.
Qed.

Lemma dict_values_setitem k v d x :
  x ∈ PyDict.values (PyDict.setitem k v d) -> x = v \/ x ∈ PyDict.values d.
Proof.
  unfold PyDict.values.
  induction d as [|[k0 v0] d IH]; simpl.
  - intros H. apply list_elem_of_singleton in H. auto.
  - destruct (N.eqb k k0); simpl; intros H; inversion H; subst; auto.
    + right. right. assumption.
    + right. left.
    + destruct (IH ltac:(assumption)); auto. right. right. assumption.
Qed.

Lemma dict_values_delitem k d d' x :
  PyDict.delitem k d = Some d' ->
  x ∈ PyDict.values d' -> x ∈ PyDict.values d.
Proof.
  unfold PyDict.values. revert d'.
  induction d as [|[k0 v0] d IH]; simpl; intros d' H; [discriminate|].
  destruct (N.eqb k k0).
  - injection H as <-. intros Hx. right. exact Hx.
  - destruct (PyDict.delitem k d) as [d0|]; [|discriminate].
    injection H as <-. simpl. intros Hx.
    inversion Hx; subst; [left | right; eauto].
Qed.

(** Deleting a key that was just added to a dict without it gives the dict
    back. *)
Lemma dict_delitem_setitem_new k v d :
  PyDict.contains k d = false ->
  PyDict.delitem k (PyDict.setitem k v d) = Some d.
Proof.
  induction d as [|[k' v'] d IH]; simpl.
  - intros _. rewrite N.eqb_refl. reflexivity.
  - destruct (N.eqb k k') eqn:E; [discriminate|]. intros H. simpl.
    rewrite E, IH by exact H. reflexivity.
Qed.

Lemma dict_setitem_setitem k v v' d :
  PyDict.setitem k v (PyDict.setitem k v' d) = PyDict.setitem k v d.
Proof.
  induction d as [|[k0 v0] d IH]; simpl.
  - rewrite N.eqb_refl. reflexivity.
  - destruct (N.eqb k k0) eqn:E; simpl.
    + rewrite N.eqb_refl. reflexivity.
    + rewrite E, IH. reflexivity.
Qed.

(** With distinct keys, assigning to an existing key rewrites that one
    binding where it stands. *)
Lemma dict_setitem_old_map k v d :
  PyDict.wf d -> PyDict.contains k d = true ->
  PyDict.setitem k v d
  = (fun binding => if N.eqb binding.1 k then (k, v) else binding) <$> d.
Proof.
  unfold PyDict.wf.
  induction d as [|[k0 v0] d IH]; simpl; [discriminate|].
  intros Hwf Hin. apply NoDup_cons in Hwf as [Hk0 Hwf].
  destruct (N.eqb_spec k k0) as [->|Hne].
  - rewrite N.eqb_refl. f_equal.
    clear IH Hin Hwf. induction d as [|[k1 v1] d IH]; [reflexivity|].
    simpl in *. apply not_elem_of_cons in Hk0 as [Hne Hk0].
    destruct (N.eqb_spec k1 k0); [congruence|]. f_equal. auto.
  - destruct (N.eqb_spec k0 k); [congruence|]. f_equal. auto.
Qed.

(** With distinct keys, deleting a key filters its binding out. *)
Lemma dict_delitem_filter k d d' :
  PyDict.wf d -> PyDict.delitem k d = Some d' ->
  d' = filter (fun binding => binding.1 <> k) d.
Proof.
  unfold PyDict.wf. revert d'.
  induction d as [|[k0 v0] d IH]; simpl; intros d' Hwf H; [discriminate|].
  apply NoDup_cons in Hwf as [Hk0 Hwf].
  destruct (N.eqb_spec k k0) as [->|Hne].
  - injection H as <-. rewrite filter_cons_False by (simpl; auto).
    clear IH Hwf. induction d as [|[k1 v1] d IH]; [reflexivity|].
    simpl in Hk0. apply not_elem_of_cons in Hk0 as [Hne Hk0].
    rewrite filter_cons_True by (simpl; congruence). f_equal. auto.
  - destruct (PyDict.delitem k d) as [d0|] eqn:E; [|discriminate].
    injection H as <-.
    rewrite filter_cons_True by (simpl; congruence). f_equal. auto.
Qed.

(** What a lookup finds is a binding of the dict. *)
Lemma dict_getitem_binding k v d :
  PyDict.getitem k d = Some v -> (k, v) ∈ d.
Proof.
  induction d as [|[k0 v0] d IH]; simpl; [discriminate|].
  destruct (N.eqb_spec k k0) as [->|Hne].
  - intros [= ->]. left.
  - intros H. right. auto.
Qed.

(** With distinct keys, a binding of the dict is what a lookup finds. *)
Lemma dict_getitem_elem_of k v d :
  PyDict.wf d -> (k, v) ∈ d -> PyDict.getitem k d = Some v.
Proof.
  unfold PyDict.wf.
  induction d as [|[k0 v0] d IH]; simpl; intros Hwf Hin; [inversion Hin|].
  apply NoDup_cons in Hwf as [Hk0 Hwf].
  apply elem_of_cons in Hin as [[= <- <-]|Hin].
  - rewrite N.eqb_refl. reflexivity.
  - destruct (N.eqb_spec k k0) as [->|Hne]; [|auto].
    exfalso. apply Hk0. apply list_elem_of_fmap. exists (k0, v). auto.
Qed.

End dict_facts.

(** ** What each handler computes *)

Ltac unfold_handler :=
  unfold get_feedback, update_feedback, delete_feedback, create_feedback,
    get_all_feedbacks, root, not_found, raise, uuid4,
    db_contains, db_getitem, db_setitem, db_delitem, db_values,
    mbind, mret, handler_bind, handler_ret.

Lemma get_feedback_run feedback_uuid w :
  get_feedback feedback_uuid w =
  match PyDict.getitem feedback_uuid (feedbacks_db w) with
  | Some f => (inr f, w)
  | None => not_found feedback_uuid w
  end.
Proof.
  unfold_handler.
  destruct (PyDict.contains feedback_uuid (feedbacks_db w)) eqn:E; simpl.
  - apply dict_contains_getitem in E as [f ->]. reflexivity.
  - rewrite dict_not_contains_getitem by exact E. reflexivity.
Qed.

Lemma delete_feedback_run feedback_uuid w :
  delete_feedback feedback_uuid w =
  match PyDict.delitem feedback_uuid (feedbacks_db w) with
  | Some d => (inr tt, mkWorld d (uuid4_calls w))
  | None => not_found feedback_uuid w
  end.
Proof.
  unfold_handler.
  destruct (PyDict.contains feedback_uuid (feedbacks_db w)) eqn:E; simpl.
  - apply dict_delitem_is_Some in E as (d & -> & _). reflexivity.
  - rewrite dict_delitem_None by exact E. reflexivity.
Qed.

Lemma update_feedback_run feedback_uuid feedback_update w :
  update_feedback feedback_uuid feedback_update w =
  match PyDict.getitem feedback_uuid (feedbacks_db w) with
  | None => not_found feedback_uuid w
  | Some stored_feedback =>
      match model_dump_exclude_unset feedback_update with
      | [] =>
          (inl (HTTPException HTTP_400_BAD_REQUEST
                  "At least one field must be provided for update"), w)
      | update_data =>
          let updated_feedback := model_copy stored_feedback update_data in
          (inr updated_feedback,
           mkWorld (PyDict.setitem feedback_uuid updated_feedback (feedbacks_db w))
             (uuid4_calls w))
      end
  end.
Proof.
  unfold_handler.
  destruct (PyDict.contains feedback_uuid (feedbacks_db w)) eqn:E; simpl.
  - apply dict_contains_getitem in E as [f ->].
    destruct (model_dump_exclude_unset feedback_update); reflexivity.
  - rewrite dict_not_contains_getitem by exact E. reflexivity.
Qed.

(** The constructor accepts exactly the values that meet the field
    constraints, and stores the normalised address. *)
Lemma Feedback_init_ok uuid c e e' w :
  1 <= String.length c <= 1000 -> validate_email e = Some e' ->
  Feedback_init uuid c e w = (inr (Feedback.mk uuid (Some c) (Some e')), w).
Proof.
  intros [Hlo Hhi] He. unfold Feedback_init, constrained_str, EmailStr.
  rewrite He.
  destruct (Nat.ltb_spec (String.length c) 1); [lia|].
  destruct (Nat.ltb_spec 1000 (String.length c)); [lia|].
  reflexivity.
Qed.

Lemma Feedback_init_world uuid c e w r w' :
  Feedback_init uuid c e w = (r, w') -> w' = w.
Proof.
  unfold Feedback_init.
  destruct (constrained_str _ _ _ _), (EmailStr _ _); intros [= _ <-]; reflexivity.
Qed.

Lemma Feedback_init_valid uuid c e w f w' :
  (forall s s', validate_email s = Some s' -> is_Some (validate_email s')) ->
  Feedback_init uuid c e w = (inr f, w') -> valid_feedback f = true.
Proof.
  intros Hnorm. unfold Feedback_init, constrained_str, EmailStr.
  destruct (Nat.ltb_spec (String.length c) 1); [intros [=]|].
  destruct (Nat.ltb_spec 1000 (String.length c)); [intros [=]|].
  destruct (validate_email e) as [e'|] eqn:He; [|intros [=]].
  intros [= <- _]. unfold valid_feedback, valid_content, valid_email.
  cbn [Feedback.feedback_content Feedback.email_address].
  apply andb_true_intro. split.
  - apply andb_true_intro. split; apply Nat.leb_le; lia.
  - apply bool_decide_eq_true. eauto.
Qed.

Lemma create_feedback_run feedback w :
  create_feedback feedback w =
  let feedback_uuid := random_uuid (uuid4_calls w) in
  let w1 := mkWorld (feedbacks_db w) (S (uuid4_calls w)) in
  match Feedback_init feedback_uuid (FeedbackCreate.feedback_content feedback)
          (FeedbackCreate.email_address feedback) w1 with
  | (inr new_feedback, _) =>
      (inr new_feedback,
       mkWorld (PyDict.setitem feedback_uuid new_feedback (feedbacks_db w))
         (S (uuid4_calls w)))
  | (inl e, _) => (inl e, w1)
  end.
Proof.
  unfold_handler. simpl.
  destruct (Feedback_init _ _ _ _) as [[e|f] w2] eqn:E;
    apply Feedback_init_world in E as ->; reflexivity.
Qed.

(** *** Validation of bodies *)

Lemma elem_of_supplied field fields body :
  field ∈ supplied fields body <-> is_Some (body !! field) /\ field ∈ fields.
Proof.
  unfold supplied. rewrite elem_of_list_to_set, list_elem_of_filter.
  reflexivity.
Qed.

(** The dump of a validated update body has one entry per supplied field. *)
Lemma FeedbackUpdate_dump body feedback_update :
  FeedbackUpdate_validate body = inr feedback_update ->
  model_dump_exclude_unset feedback_update =
    match body !! "feedback_content" with
    | Some _ =>
        [("feedback_content", FeedbackUpdate.feedback_content feedback_update)]
    | None => []
    end ++
    match body !! "email_address" with
    | Some _ => [("email_address", FeedbackUpdate.email_address feedback_update)]
    | None => []
    end.
Proof.
  unfold FeedbackUpdate_validate.
  destruct (defaulted _ "feedback_content" body) as [?|c]; [intros [=]|].
  destruct (defaulted _ "email_address" body) as [?|e]; [intros [=]|].
  intros [= <-]. unfold model_dump_exclude_unset. simpl. f_equal.
  - destruct (body !! "feedback_content") eqn:E.
    + rewrite bool_decide_eq_true_2; [reflexivity|].
      apply elem_of_supplied. rewrite E. split; [eauto | set_solver].
    + rewrite bool_decide_eq_false_2; [reflexivity|].
      rewrite elem_of_supplied, E. intros [[? [=]] _].
  - destruct (body !! "email_address") eqn:E.
    + rewrite bool_decide_eq_true_2; [reflexivity|].
      apply elem_of_supplied. rewrite E. split; [eauto | set_solver].
    + rewrite bool_decide_eq_false_2; [reflexivity|].
      rewrite elem_of_supplied, E. intros [[? [=]] _].
Qed.

Lemma FeedbackUpdate_validate_empty body :
  body !! "feedback_content" = None -> body !! "email_address" = None ->
  FeedbackUpdate_validate body =
    inr (FeedbackUpdate.mk None None
           (supplied ["feedback_content"; "email_address"] body)).
Proof.
  intros Hc He. unfold FeedbackUpdate_validate, defaulted.
  rewrite Hc, He. reflexivity.
Qed.

(** ** Errors and the store *)

(** C2: a request answered with an error status (4xx or 5xx) leaves the
    store as it was. *)
Theorem error_response_keeps_store r w :
  is_error (app r w).1 = true ->
  feedbacks_db (app r w).2 = feedbacks_db w.
Proof.
  destruct r as [body| |u|u body|u|]; unfold app, unprocessable, respond.
  - destruct (FeedbackCreate_validate body) as [errs|fc]; [reflexivity|].
    rewrite create_feedback_run. cbv zeta.
    destruct (Feedback_init _ _ _ _) as [[e|f] w1]; [reflexivity|].
    simpl. discriminate.
  - unfold_handler. reflexivity.
  - rewrite get_feedback_run.
    destruct (PyDict.getitem u (feedbacks_db w)); reflexivity.
  - destruct (FeedbackUpdate_validate body) as [errs|fu]; [reflexivity|].
    rewrite update_feedback_run.
    destruct (PyDict.getitem u (feedbacks_db w)); [|reflexivity].
    destruct (model_dump_exclude_unset fu); [reflexivity|].
    simpl. discriminate.
  - rewrite delete_feedback_run.
    destruct (PyDict.delitem u (feedbacks_db w)); [|reflexivity].
    simpl. discriminate.
  - reflexivity.
Qed.

(** C5: an update of an existing record whose body supplies neither field
    is answered 400 with the handler's "At least one field must be
    provided for update" (which, up to case, starts with the phrase "at
    least one field must be provided"), and the world is left as it was. *)
Theorem empty_update_rejected feedback_uuid body w :
  PyDict.contains feedback_uuid (feedbacks_db w) = true ->
  body !! "feedback_content" = None ->
  body !! "email_address" = None ->
  exists detail,
    app (PUT_feedback feedback_uuid body) w
      = (mkResponse 400 (DetailContent detail), w)
    /\ detail = "At least one field must be provided for update"
    /\ String.prefix "at least one field must be provided" (str_lower detail)
       = true.
Proof.
  intros Hin Hc He. eexists. split; [|split; reflexivity].
  unfold app, respond.
  pose proof (FeedbackUpdate_validate_empty body Hc He) as Hv. rewrite Hv.
  rewrite update_feedback_run.
  apply dict_contains_getitem in Hin as [stored ->].
  rewrite (FeedbackUpdate_dump _ _ Hv), Hc, He. reflexivity.
Qed.

(** C9: an update of an id that is not in the store, with a body that
    supplies neither field, is answered 404 (the id is looked up before the
    body is inspected), not 400; the world is left as it was. *)
Theorem update_unknown_id_not_found feedback_uuid body w :
  PyDict.contains feedback_uuid (feedbacks_db w) = false ->
  body !! "feedback_content" = None ->
  body !! "email_address" = None ->
  app (PUT_feedback feedback_uuid body) w
  = (mkResponse 404
       (DetailContent
          ("Feedback with UUID " +:+ UUID_str feedback_uuid +:+ " not found")),
     w).
Proof.
  intros Hout Hc He. unfold app, respond.
  rewrite (FeedbackUpdate_validate_empty body Hc He), update_feedback_run.
  rewrite dict_not_contains_getitem by exact Hout. reflexivity.
Qed.

(** ** Updates *)

(** An accepted update of a stored record whose dump is not empty: the
    answer is the merged record, which is also what the store then holds
    under the same key; other keys and the size are untouched. *)
Lemma update_accepted feedback_uuid stored body feedback_update entry entries w :
  PyDict.getitem feedback_uuid (feedbacks_db w) = Some stored ->
  FeedbackUpdate_validate body = inr feedback_update ->
  model_dump_exclude_unset feedback_update = entry :: entries ->
  let updated := model_copy stored (entry :: entries) in
  exists w',
    app (PUT_feedback feedback_uuid body) w
      = (mkResponse 200 (FeedbackContent updated), w')
    /\ PyDict.getitem feedback_uuid (feedbacks_db w') = Some updated
    /\ (forall k, k <> feedback_uuid ->
          PyDict.getitem k (feedbacks_db w') = PyDict.getitem k (feedbacks_db w))
    /\ PyDict.len (feedbacks_db w') = PyDict.len (feedbacks_db w).
Proof.
  intros Hget Hv Hdump updated.
  exists (mkWorld (PyDict.setitem feedback_uuid updated (feedbacks_db w))
            (uuid4_calls w)).
  split; [|split; [|split]]; simpl.
  - unfold app, respond. rewrite Hv, update_feedback_run, Hget, Hdump.
    reflexivity.
  - apply dict_getitem_setitem_eq.
  - intros k Hk. apply dict_getitem_setitem_ne. congruence.
  - apply dict_len_setitem_old. eapply dict_getitem_contains; eauto.
Qed.

(** C4: updating an existing record with a body that supplies only a valid
    content X is answered 200 with the stored record in which the content is
    X and the email and uuid are as before; the store holds that same record
    afterwards, and no other entry changes. *)
Theorem update_content_only feedback_uuid stored X body w :
  PyDict.getitem feedback_uuid (feedbacks_db w) = Some stored ->
  1 <= String.length X <= 1000 ->
  body !! "feedback_content" = Some (JStr X) ->
  body !! "email_address" = None ->
  let updated :=
    Feedback.mk (Feedback.uuid stored) (Some X) (Feedback.email_address stored) in
  exists w',
    app (PUT_feedback feedback_uuid body) w
      = (mkResponse 200 (FeedbackContent updated), w')
    /\ PyDict.getitem feedback_uuid (feedbacks_db w') = Some updated
    /\ (forall k, k <> feedback_uuid ->
          PyDict.getitem k (feedbacks_db w') = PyDict.getitem k (feedbacks_db w))
    /\ PyDict.len (feedbacks_db w') = PyDict.len (feedbacks_db w).
Proof.
  intros Hget [Hlo Hhi] Hc He updated.
  assert (Hv : FeedbackUpdate_validate body =
               inr (FeedbackUpdate.mk (Some X) None
                      (supplied ["feedback_content"; "email_address"] body))).
  { unfold FeedbackUpdate_validate, defaulted, Optional, constrained_str.
    rewrite Hc, He.
    destruct (Nat.ltb_spec (String.length X) 1); [lia|].
    destruct (Nat.ltb_spec 1000 (String.length X)); [lia|]. reflexivity. }
  pose proof (FeedbackUpdate_dump _ _ Hv) as Hdump. rewrite Hc, He in Hdump.
  exact (update_accepted _ _ _ _ _ _ _ Hget Hv Hdump).
Qed.

(** C10 (amended): an update of an existing record whose body gives [null]
    for [feedback_content] (or for [email_address]) and whose other field is
    absent, [null] or a valid value is answered 200, neither 400 nor 422;
    the stored record then holds [None] in the null field, and in the other
    field the stored value, [None] or the validated new value respectively;
    the uuid is as before, and the response carries that same record. *)
Theorem null_field_update_accepted feedback_uuid stored body w :
  PyDict.getitem feedback_uuid (feedbacks_db w) = Some stored ->
  (body !! "feedback_content" = Some JNull ->
   forall email_after,
     (body !! "email_address" = None
      /\ email_after = Feedback.email_address stored)
     \/ (body !! "email_address" = Some JNull /\ email_after = None)
     \/ (exists e e',
           body !! "email_address" = Some (JStr e)
           /\ validate_email e = Some e' /\ email_after = Some e') ->
     let updated := Feedback.mk (Feedback.uuid stored) None email_after in
     exists w',
       app (PUT_feedback feedback_uuid body) w
         = (mkResponse 200 (FeedbackContent updated), w')
       /\ PyDict.getitem feedback_uuid (feedbacks_db w') = Some updated)
  /\
  (body !! "email_address" = Some JNull ->
   forall content_after,
     (body !! "feedback_content" = None
      /\ content_after = Feedback.feedback_content stored)
     \/ (body !! "feedback_content" = Some JNull /\ content_after = None)
     \/ (exists X,
           body !! "feedback_content" = Some (JStr X)
           /\ 1 <= String.length X <= 1000 /\ content_after = Some X) ->
     let updated := Feedback.mk (Feedback.uuid stored) content_after None in
     exists w',
       app (PUT_feedback feedback_uuid body) w
         = (mkResponse 200 (FeedbackContent updated), w')
       /\ PyDict.getitem feedback_uuid (feedbacks_db w') = Some updated).
Proof.
  intros Hget.
  assert (Hrun : forall c e entry entries,
             FeedbackUpdate_validate body =
               inr (FeedbackUpdate.mk c e
                      (supplied ["feedback_content"; "email_address"] body)) ->
             (match body !! "feedback_content" with
              | Some _ => [("feedback_content", c)]
              | None => []
              end ++
              match body !! "email_address" with
              | Some _ => [("email_address", e)]
              | None => []
              end) = entry :: entries ->
             exists w',
               app (PUT_feedback feedback_uuid body) w
               = (mkResponse 200
                    (FeedbackContent (model_copy stored (entry :: entries))), w')
               /\ PyDict.getitem feedback_uuid (feedbacks_db w')
                  = Some (model_copy stored (entry :: entries))).
  { intros c e entry entries Hv Hd.
    pose proof (FeedbackUpdate_dump _ _ Hv) as Hdump. simpl in Hdump.
    rewrite Hd in Hdump.
    destruct (update_accepted _ _ _ _ _ _ _ Hget Hv Hdump) as (w' & H1 & H2 & _).
    exists w'. split; assumption. }
  split.
  - intros Hc email_after
      [[He ->]|[[He ->]|(e & e' & He & Hn & ->)]] updated.
    + apply (Hrun None None ("feedback_content", None) []).
      * unfold FeedbackUpdate_validate, defaulted, Optional.
        rewrite Hc, He. reflexivity.
      * rewrite Hc, He. reflexivity.
    + apply (Hrun None None ("feedback_content", None)
               [("email_address", None)]).
      * unfold FeedbackUpdate_validate, defaulted, Optional.
        rewrite Hc, He. reflexivity.
      * rewrite Hc, He. reflexivity.
    + apply (Hrun None (Some e') ("feedback_content", None)
               [("email_address", Some e')]).
      * unfold FeedbackUpdate_validate, defaulted, Optional, EmailStr.
        rewrite Hc, He, Hn. reflexivity.
      * rewrite Hc, He. reflexivity.
  - intros He content_after
      [[Hc ->]|[[Hc ->]|(X & Hc & [Hlo Hhi] & ->)]] updated.
    + apply (Hrun None None ("email_address", None) []).
      * unfold FeedbackUpdate_validate, defaulted, Optional.
        rewrite Hc, He. reflexivity.
      * rewrite Hc, He. reflexivity.
    + apply (Hrun None None ("feedback_content", None)
               [("email_address", None)]).
      * unfold FeedbackUpdate_validate, defaulted, Optional.
        rewrite Hc, He. reflexivity.
      * rewrite Hc, He. reflexivity.
    + apply (Hrun (Some X) None ("feedback_content", Some X)
               [("email_address", None)]).
      * unfold FeedbackUpdate_validate, defaulted, Optional, constrained_str.
        rewrite Hc, He.
        destruct (Nat.ltb_spec (String.length X) 1); [lia|].
        destruct (Nat.ltb_spec 1000 (String.length X)); [lia|]. reflexivity.
      * rewrite Hc, He. reflexivity.
Qed.

(** ** Deletion *)

(** C6: deleting an existing id is answered 204, the record is gone, the
    store is one entry smaller and the other records are as before; after
    that, reading the id and deleting it again are both answered 404. *)
Theorem delete_then_not_found feedback_uuid w :
  PyDict.wf (feedbacks_db w) ->
  PyDict.contains feedback_uuid (feedbacks_db w) = true ->
  let gone :=
    mkResponse 404
      (DetailContent
         ("Feedback with UUID " +:+ UUID_str feedback_uuid +:+ " not found")) in
  exists w',
    app (DELETE_feedback feedback_uuid) w = (mkResponse 204 NoContent, w')
    /\ PyDict.contains feedback_uuid (feedbacks_db w') = false
    /\ S (PyDict.len (feedbacks_db w')) = PyDict.len (feedbacks_db w)
    /\ (forall k, k <> feedback_uuid ->
          PyDict.getitem k (feedbacks_db w') = PyDict.getitem k (feedbacks_db w))
    /\ app (GET_feedback feedback_uuid) w' = (gone, w')
    /\ app (DELETE_feedback feedback_uuid) w' = (gone, w').
Proof.
  intros Hwf Hin gone.
  destruct (dict_delitem_is_Some _ _ Hin) as (d' & Hdel & Hlen).
  pose proof (dict_contains_delitem _ _ _ Hwf Hdel) as Hout.
  exists (mkWorld d' (uuid4_calls w)). simpl.
  split; [|split; [|split; [|split; [|split]]]].
  - unfold app, respond. rewrite delete_feedback_run, Hdel. reflexivity.
  - exact Hout.
  - symmetry. exact Hlen.
  - intros k Hk. eapply dict_getitem_delitem_ne; [|exact Hdel]. congruence.
  - unfold app, respond. rewrite get_feedback_run. simpl.
    rewrite dict_not_contains_getitem by exact Hout. reflexivity.
  - unfold app, respond. rewrite delete_feedback_run. simpl.
    rewrite dict_delitem_None by exact Hout. reflexivity.
Qed.

(** ** Creation *)

(** C7: a create request whose content is empty or longer than 1000
    characters, or whose email is rejected by the address check, is answered
    422 with a non-empty list of field errors, and the world (so the store
    and its size) is left as it was. *)
Theorem invalid_create_rejected body c e w :
  (body !! "feedback_content" = Some (JStr c)
   /\ (String.length c = 0 \/ 1000 < String.length c))
  \/ (body !! "email_address" = Some (JStr e) /\ validate_email e = None) ->
  exists errors,
    app (POST_feedbacks body) w = (mkResponse 422 (ErrorsContent errors), w)
    /\ errors <> [].
Proof.
  intros Hbad. unfold app, unprocessable, FeedbackCreate_validate.
  destruct Hbad as [[Hc Hlen]|[He Hrej]].
  - assert (exists err, required (constrained_str 1 1000) "feedback_content" body
                        = inl [err]) as [err ->].
    { unfold required, constrained_str. rewrite Hc.
      destruct (Nat.ltb_spec (String.length c) 1); [eauto|].
      destruct (Nat.ltb_spec 1000 (String.length c)); [eauto|]. lia. }
    eexists. split; [reflexivity|]. discriminate.
  - assert (required EmailStr "email_address" body
            = inl [mkErrorDetails value_error "email_address"]) as ->.
    { unfold required, EmailStr. rewrite He, Hrej. reflexivity. }
    destruct (required (constrained_str 1 1000) "feedback_content" body);
      (eexists; split; [reflexivity|]).
    + simpl. intros H. apply app_eq_nil in H as [_ H]. discriminate.
    + discriminate.
Qed.

(** C3 (amended): for a content of 1 to 1000 characters and an address that
    the address check accepts, a create request is answered 201 with the
    record made of the identifier just drawn, that content and the address
    as the address check normalises it (the request model applies the check
    and the [Feedback] constructor applies it again); this is the given
    address when the check returns it unchanged.  Reading that identifier
    next is answered 200 with the same record; and, the identifier being new
    to the store, the store has grown by exactly one entry. *)
Theorem create_then_get_normalized content email normalized stored_email body w :
  1 <= String.length content <= 1000 ->
  validate_email email = Some normalized ->
  validate_email normalized = Some stored_email ->
  body !! "feedback_content" = Some (JStr content) ->
  body !! "email_address" = Some (JStr email) ->
  let feedback_uuid := random_uuid (uuid4_calls w) in
  PyDict.contains feedback_uuid (feedbacks_db w) = false ->
  let created :=
    Feedback.mk feedback_uuid (Some content) (Some stored_email) in
  exists w',
    app (POST_feedbacks body) w
      = (mkResponse 201 (FeedbackContent created), w')
    /\ app (GET_feedback feedback_uuid) w'
      = (mkResponse 200 (FeedbackContent created), w')
    /\ PyDict.len (feedbacks_db w') = S (PyDict.len (feedbacks_db w))
    /\ (normalized = email -> stored_email = email).
Proof.
  intros Hlen Hnorm Hstored Hc He feedback_uuid Hfresh created.
  exists (mkWorld (PyDict.setitem feedback_uuid created (feedbacks_db w))
            (S (uuid4_calls w))).
  split; [|split; [|split]]; simpl.
  - unfold app, respond.
    assert (FeedbackCreate_validate body
            = inr (FeedbackCreate.mk content normalized)) as ->.
    { unfold FeedbackCreate_validate, required, constrained_str, EmailStr.
      rewrite Hc, He, Hnorm.
      destruct (Nat.ltb_spec (String.length content) 1); [lia|].
      destruct (Nat.ltb_spec 1000 (String.length content)); [lia|].
      reflexivity. }
    rewrite create_feedback_run. cbv zeta. simpl.
    rewrite (Feedback_init_ok _ _ _ _ _ Hlen Hstored). reflexivity.
  - unfold app, respond. rewrite get_feedback_run. simpl.
    rewrite dict_getitem_setitem_eq. reflexivity.
  - apply dict_len_setitem_new. exact Hfresh.
  - intros ->. congruence.
Qed.

(** ** Startup *)

Lemma seed_step c e d n :
  1 <= String.length c <= 1000 ->
  validate_email e = Some e ->
  PyDict.contains (random_uuid n) d = false ->
  (feedback_uuid ← uuid4;
   feedback ← Feedback_init feedback_uuid c e;
   db_setitem feedback_uuid feedback) (mkWorld d n)
  = (inr tt,
     mkWorld (d ++ [(random_uuid n, Feedback.mk (random_uuid n) (Some c) (Some e))])
       (S n)).
Proof.
  intros Hlen He Hfresh. unfold_handler. simpl.
  rewrite (Feedback_init_ok _ _ _ _ _ Hlen He). simpl.
  rewrite dict_setitem_new by exact Hfresh. reflexivity.
Qed.

(** The seeding loop, started on any dict and any number of earlier draws:
    with identifiers that are new and pairwise distinct it appends one
    record per seed, in order. *)
Lemma seed_loop l d n :
  Forall (fun dummy => 1 <= String.length dummy.1 <= 1000
                       /\ validate_email dummy.2 = Some dummy.2) l ->
  NoDup (d.*1 ++ (random_uuid <$> seq n (length l))) ->
  for_each l (fun dummy =>
    feedback_uuid ← uuid4;
    feedback ← Feedback_init feedback_uuid dummy.1 dummy.2;
    db_setitem feedback_uuid feedback) (mkWorld d n)
  = (inr tt,
     mkWorld
       (d ++ imap (fun i dummy =>
                     (random_uuid (n + i),
                      Feedback.mk (random_uuid (n + i)) (Some dummy.1) (Some dummy.2)))
               l)
       (n + length l)).
Proof.
  revert d n. induction l as [|[c e] l IH]; intros d n Hall Hnd.
  - simpl. rewrite app_nil_r, Nat.add_0_r. reflexivity.
  - apply Forall_cons in Hall as [[Hlen He] Hall]. simpl in Hlen, He, Hnd.
    assert (Hfresh : PyDict.contains (random_uuid n) d = false).
    { destruct (PyDict.contains (random_uuid n) d) eqn:E; [|reflexivity].
      apply dict_contains_keys in E.
      apply NoDup_app in Hnd as (_ & Hdisj & _).
      exfalso. apply (Hdisj _ E). left. }
    change (for_each ((c, e) :: l) ?body) with
      (body (c, e) ≫= fun _ => for_each l body).
    unfold mbind at 1. unfold handler_bind at 1.
    cbn [fst snd]. rewrite (seed_step _ _ _ _ Hlen He Hfresh).
    rewrite IH; [|exact Hall|].
    + rewrite imap_cons, <- app_assoc. cbn [app fst snd length].
      rewrite Nat.add_0_r.
      replace (n + S (length l)) with (S n + length l) by lia.
      do 4 f_equal.
      apply imap_ext. intros i [c' e'] _. unfold compose. cbn [fst snd].
      rewrite Nat.add_succ_r. reflexivity.
    + rewrite fmap_app, <- app_assoc. exact Hnd.
Qed.

(** C8: when the ten identifiers drawn at import are pairwise distinct and
    the address check returns each seed address unchanged, the import
    succeeds and the first list request is answered 200 with exactly ten
    records: the ten seed content and email pairs, in order, each with the
    identifier drawn for it. *)
Theorem startup_lists_ten_records :
  NoDup (random_uuid <$> seq 0 10) ->
  Forall (fun dummy => validate_email dummy.2 = Some dummy.2) dummy_feedbacks ->
  exists w feedbacks,
    module_import = Some w
    /\ app GET_feedbacks w = (mkResponse 200 (FeedbackListContent feedbacks), w)
    /\ length feedbacks = 10
    /\ feedbacks =
         imap (fun i dummy =>
                 Feedback.mk (random_uuid i) (Some dummy.1) (Some dummy.2))
           dummy_feedbacks.
Proof.
  intros Hnd Hemails.
  assert (Hall : Forall (fun dummy => 1 <= String.length dummy.1 <= 1000
                           /\ validate_email dummy.2 = Some dummy.2)
                   dummy_feedbacks).
  { assert (Hlens : Forall (fun dummy => 1 <= String.length dummy.1 <= 1000)
                      dummy_feedbacks).
    { unfold dummy_feedbacks. repeat constructor; vm_compute; lia. }
    rewrite Forall_forall in *. auto. }
  pose proof (seed_loop dummy_feedbacks [] 0 Hall Hnd) as Hrun.
  eexists _, _. split; [|split; [|split]].
  - unfold module_import, initialize_dummy_data. rewrite Hrun. reflexivity.
  - reflexivity.
  - reflexivity.
  - reflexivity.
Qed.

(** ** Invariants of the store *)

Lemma for_each_preserves {A} (P : World -> Prop) (xs : list A) body :
  (forall x w r w', body x w = (r, w') -> P w -> P w') ->
  forall w r w', for_each xs body w = (r, w') -> P w -> P w'.
Proof.
  intros Hbody. induction xs as [|x xs IH]; intros w r w'; simpl.
  - intros [= _ <-]. auto.
  - unfold mbind, handler_bind.
    destruct (body x w) as [[e|[]] w1] eqn:E.
    + intros [= _ <-]. eauto.
    + intros Hrest Hw. eapply IH; eauto.
Qed.

(** Every request keeps the keys of the store pairwise distinct. *)
Lemma app_wf r w :
  PyDict.wf (feedbacks_db w) -> PyDict.wf (feedbacks_db (app r w).2).
Proof.
  intros Hwf.
  destruct r as [body| |u|u body|u|]; unfold app, unprocessable, respond.
  - destruct (FeedbackCreate_validate body) as [errs|fc]; [exact Hwf|].
    rewrite create_feedback_run. cbv zeta.
    destruct (Feedback_init _ _ _ _) as [[e|f] w1]; [exact Hwf|].
    simpl. apply dict_wf_setitem, Hwf.
  - exact Hwf.
  - rewrite get_feedback_run.
    destruct (PyDict.getitem u (feedbacks_db w)); exact Hwf.
  - destruct (FeedbackUpdate_validate body) as [errs|fu]; [exact Hwf|].
    rewrite update_feedback_run.
    destruct (PyDict.getitem u (feedbacks_db w)); [|exact Hwf].
    destruct (model_dump_exclude_unset fu); [exact Hwf|].
    simpl. apply dict_wf_setitem, Hwf.
  - rewrite delete_feedback_run.
    destruct (PyDict.delitem u (feedbacks_db w)) eqn:E; [|exact Hwf].
    simpl. eapply dict_wf_delitem; eauto.
  - exact Hwf.
Qed.

Lemma serve_wf rs w :
  PyDict.wf (feedbacks_db w) -> PyDict.wf (feedbacks_db (serve rs w).2).
Proof.
  revert w. induction rs as [|r rs IH]; intros w Hwf; simpl; [exact Hwf|].
  pose proof (app_wf r w Hwf) as Hstep.
  destruct (app r w) as [resp w1]. specialize (IH w1 Hstep).
  destruct (serve rs w1) as [resps w2]. exact IH.
Qed.

Lemma seed_body_run (dummy : string * string) w :
  (feedback_uuid ← uuid4;
   feedback ← Feedback_init feedback_uuid dummy.1 dummy.2;
   db_setitem feedback_uuid feedback) w
  = let feedback_uuid := random_uuid (uuid4_calls w) in
    let w1 := mkWorld (feedbacks_db w) (S (uuid4_calls w)) in
    match Feedback_init feedback_uuid dummy.1 dummy.2 w1 with
    | (inr feedback, _) =>
        (inr tt,
         mkWorld (PyDict.setitem feedback_uuid feedback (feedbacks_db w))
           (S (uuid4_calls w)))
    | (inl e, _) => (inl e, w1)
    end.
Proof.
  unfold_handler. simpl.
  destruct (Feedback_init _ _ _ _) as [[e|f] w2] eqn:E;
    apply Feedback_init_world in E as ->; reflexivity.
Qed.

Lemma module_import_wf w :
  module_import = Some w -> PyDict.wf (feedbacks_db w).
Proof.
  unfold module_import, initialize_dummy_data.
  destruct (for_each _ _ _) as [[e|[]] w1] eqn:E; intros [= <-].
  refine (for_each_preserves (fun w => PyDict.wf (feedbacks_db w)) _ _ _ _ _ _ E _).
  - intros dummy w0 r w'. rewrite seed_body_run. cbv zeta.
    destruct (Feedback_init _ _ _ _) as [[e|f] w2]; intros [= _ <-] Hwf; simpl.
    + exact Hwf.
    + apply dict_wf_setitem, Hwf.
  - apply NoDup_nil_2.
Qed.

(** *** The field constraints, away from [null] updates *)

Section field_constraints.

(** An address produced by the address check is itself accepted by it. *)
Hypothesis normalized_valid :
  forall s s', validate_email s = Some s' -> is_Some (validate_email s').

Lemma FeedbackUpdate_validate_valid body feedback_update :
  FeedbackUpdate_validate body = inr feedback_update ->
  is_null (body !! "feedback_content") = false ->
  is_null (body !! "email_address") = false ->
  (body !! "feedback_content" = None
   \/ valid_content (FeedbackUpdate.feedback_content feedback_update) = true)
  /\ (body !! "email_address" = None
      \/ valid_email (FeedbackUpdate.email_address feedback_update) = true).
Proof.
  unfold FeedbackUpdate_validate, defaulted, Optional, constrained_str, EmailStr.
  intros Hv Hc He. split.
  - destruct (body !! "feedback_content") as [[| | |X| |]|]; auto;
      try discriminate Hc; try discriminate Hv.
    right.
    destruct (Nat.ltb_spec (String.length X) 1); [discriminate Hv|].
    destruct (Nat.ltb_spec 1000 (String.length X)); [discriminate Hv|].
    destruct (match body !! "email_address" with Some _ => _ | None => _ end);
      [discriminate Hv|].
    injection Hv as <-. unfold valid_content.
    cbn [FeedbackUpdate.feedback_content].
    apply andb_true_intro. split; apply Nat.leb_le; lia.
  - destruct (match body !! "feedback_content" with Some _ => _ | None => _ end);
      [discriminate Hv|].
    destruct (body !! "email_address") as [[| | |X| |]|]; auto;
      try discriminate He; try discriminate Hv.
    right. destruct (validate_email X) as [X'|] eqn:HX; [|discriminate Hv].
    injection Hv as <-. unfold valid_email.
    cbn [FeedbackUpdate.email_address].
    apply bool_decide_eq_true. eauto.
Qed.

(** A request other than an update with a [null] field keeps every stored
    record within the field constraints. *)
Lemma app_store_valid r w :
  sets_null r = false -> store_valid w -> store_valid (app r w).2.
Proof.
  unfold store_valid. rewrite !Forall_forall. intros Hnn Hvalid.
  destruct r as [body| |u|u body|u|]; unfold app, unprocessable, respond.
  - destruct (FeedbackCreate_validate body) as [errs|fc]; [exact Hvalid|].
    rewrite create_feedback_run. cbv zeta.
    destruct (Feedback_init _ _ _ _) as [[e|f] w1] eqn:E; [exact Hvalid|].
    simpl. intros x Hx. apply dict_values_setitem in Hx as [->|Hx]; [|auto].
    eapply Feedback_init_valid; eauto.
  - exact Hvalid.
  - rewrite get_feedback_run.
    destruct (PyDict.getitem u (feedbacks_db w)); exact Hvalid.
  - destruct (FeedbackUpdate_validate body) as [errs|fu] eqn:Hv; [exact Hvalid|].
    rewrite update_feedback_run.
    destruct (PyDict.getitem u (feedbacks_db w)) as [stored|] eqn:Hget;
      [|exact Hvalid].
    simpl in Hnn. apply orb_false_elim in Hnn as [Hc He].
    destruct (FeedbackUpdate_validate_valid _ _ Hv Hc He) as [Hvc Hve].
    pose proof (Hvalid _ (dict_getitem_values _ _ _ Hget)) as Hstored.
    apply andb_prop in Hstored as [Hsc Hse].
    rewrite (FeedbackUpdate_dump _ _ Hv).
    assert (Hcopy : forall entries,
               entries = (match body !! "feedback_content" with
                          | Some _ => [("feedback_content",
                                        FeedbackUpdate.feedback_content fu)]
                          | None => []
                          end ++
                          match body !! "email_address" with
                          | Some _ => [("email_address",
                                        FeedbackUpdate.email_address fu)]
                          | None => []
                          end) ->
               valid_feedback (model_copy stored entries) = true).
    { intros entries ->. unfold valid_feedback.
      destruct (body !! "feedback_content"), (body !! "email_address"); simpl;
        destruct Hvc as [?|Hvc]; destruct Hve as [?|Hve]; try discriminate;
        apply andb_true_intro; split; assumption. }
    destruct (_ ++ _) as [|entry entries] eqn:Hd; [exact Hvalid|].
    cbn [snd feedbacks_db]. intros x Hx.
    apply dict_values_setitem in Hx as [->|Hx]; [|auto].
    apply Hcopy. reflexivity.
  - rewrite delete_feedback_run.
    destruct (PyDict.delitem u (feedbacks_db w)) eqn:E; [|exact Hvalid].
    simpl. intros x Hx. eapply Hvalid, dict_values_delitem; eauto.
  - exact Hvalid.
Qed.

Lemma module_import_store_valid w :
  module_import = Some w -> store_valid w.
Proof.
  unfold module_import, initialize_dummy_data.
  destruct (for_each _ _ _) as [[e|[]] w1] eqn:E; intros [= <-].
  refine (for_each_preserves store_valid _ _ _ _ _ _ E _).
  - intros dummy w0 r w'. rewrite seed_body_run. cbv zeta.
    destruct (Feedback_init _ _ _ _) as [[e|f] w2] eqn:Hf;
      intros [= _ <-]; unfold store_valid; rewrite !Forall_forall;
      intros Hvalid; simpl; [exact Hvalid|].
    intros x Hx. apply dict_values_setitem in Hx as [->|Hx]; [|auto].
    eapply Feedback_init_valid; eauto.
  - constructor.
Qed.

(** From startup on, as long as no update carries a [null] field, every
    stored record has a content of 1 to 1000 characters and an accepted
    address. *)
Lemma serve_store_valid rs w :
  store_valid w ->
  Forall (fun r => sets_null r = false) rs ->
  store_valid (serve rs w).2.
Proof.
  revert w. induction rs as [|r rs IH]; intros w Hw Hrs; simpl; [exact Hw|].
  apply Forall_cons in Hrs as [Hr Hrs].
  pose proof (app_store_valid r w Hr Hw) as Hstep.
  destruct (app r w) as [resp w1]. specialize (IH w1 Hstep Hrs).
  destruct (serve rs w1) as [resps w2]. exact IH.
Qed.

End field_constraints.

(** ** Further properties of the endpoints *)

(** *** Reads *)

(** X1: listing, reading one record and the root endpoint leave the world
    exactly as it was, whatever they answer. *)
Theorem read_only_requests_keep_world feedback_uuid w :
  (app GET_feedbacks w).2 = w
  /\ (app (GET_feedback feedback_uuid) w).2 = w
  /\ (app GET_root w).2 = w.
Proof.
  split; [reflexivity|]. split; [|reflexivity].
  unfold app, respond. rewrite get_feedback_run.
  destruct (PyDict.getitem feedback_uuid (feedbacks_db w)); reflexivity.
Qed.

(** X2: an id that is not in the store is answered 404 with the message
    naming it, by the read, by the delete and by an update with any body
    that passes validation; the world is left as it was. *)
Theorem unknown_id_not_found feedback_uuid w :
  PyDict.contains feedback_uuid (feedbacks_db w) = false ->
  let gone :=
    mkResponse 404
      (DetailContent
         ("Feedback with UUID " +:+ UUID_str feedback_uuid +:+ " not found")) in
  app (GET_feedback feedback_uuid) w = (gone, w)
  /\ app (DELETE_feedback feedback_uuid) w = (gone, w)
  /\ (forall body feedback_update,
        FeedbackUpdate_validate body = inr feedback_update ->
        app (PUT_feedback feedback_uuid body) w = (gone, w)).
Proof.
  intros Hout gone. unfold app, respond. split; [|split].
  - rewrite get_feedback_run, dict_not_contains_getitem by exact Hout.
    reflexivity.
  - rewrite delete_feedback_run, dict_delitem_None by exact Hout. reflexivity.
  - intros body fu ->.
    rewrite update_feedback_run, dict_not_contains_getitem by exact Hout.
    reflexivity.
Qed.

(** When keys agree with the records, the record found under an id carries
    that id. *)
Lemma stored_uuid feedback_uuid f d :
  keys_match d -> PyDict.getitem feedback_uuid d = Some f ->
  Feedback.uuid f = feedback_uuid.
Proof.
  unfold keys_match. rewrite Forall_forall. intros Hkeys Hget.
  exact (Hkeys _ (dict_getitem_binding _ _ _ Hget)).
Qed.

(** With distinct keys that agree with the records, every listed record is
    the one a read of its uuid returns. *)
Lemma listed_record_stored f w :
  store_consistent w -> f ∈ PyDict.values (feedbacks_db w) ->
  PyDict.getitem (Feedback.uuid f) (feedbacks_db w) = Some f.
Proof.
  intros [Hwf Hkeys] Hin. unfold PyDict.values in Hin.
  apply list_elem_of_fmap in Hin as ([k f'] & -> & Hin).
  unfold keys_match in Hkeys. rewrite Forall_forall in Hkeys.
  pose proof (Hkeys _ Hin) as Hk. simpl in *. rewrite Hk.
  apply dict_getitem_elem_of; assumption.
Qed.

(** X3: in a store whose keys are distinct and agree with the records'
    uuids, every record of the listing is returned, unchanged, by a read of
    its uuid; and what a read returns is in the listing. *)
Theorem listing_and_reads_agree w :
  store_consistent w ->
  (forall f, f ∈ PyDict.values (feedbacks_db w) ->
             app (GET_feedback (Feedback.uuid f)) w
             = (mkResponse 200 (FeedbackContent f), w))
  /\ (forall feedback_uuid f,
        app (GET_feedback feedback_uuid) w
        = (mkResponse 200 (FeedbackContent f), w) ->
        f ∈ PyDict.values (feedbacks_db w) /\ Feedback.uuid f = feedback_uuid).
Proof.
  intros Hcons. split.
  - intros f Hin. unfold app, respond.
    rewrite get_feedback_run, (listed_record_stored _ _ Hcons Hin). reflexivity.
  - intros u f. unfold app, respond. rewrite get_feedback_run.
    destruct (PyDict.getitem u (feedbacks_db w)) as [f'|] eqn:Hget;
      [|discriminate].
    intros [= ->]. split; [exact (dict_getitem_values _ _ _ Hget)|].
    destruct Hcons as [_ Hkeys]. exact (stored_uuid _ _ _ Hkeys Hget).
Qed.

(** *** Bodies of create requests *)

Lemma FeedbackCreate_validate_inr body c e' :
  FeedbackCreate_validate body = inr (FeedbackCreate.mk c e') <->
  body !! "feedback_content" = Some (JStr c)
  /\ 1 <= String.length c <= 1000
  /\ exists e, body !! "email_address" = Some (JStr e)
               /\ validate_email e = Some e'.
Proof.
  unfold FeedbackCreate_validate, required, constrained_str, EmailStr. split.
  - destruct (body !! "feedback_content") as [[| | |c0| |]|];
      try (destruct (body !! "email_address") as [[| | |e0| |]|];
           try destruct (validate_email e0); discriminate).
    destruct (Nat.ltb_spec (String.length c0) 1);
      [destruct (body !! "email_address") as [[| | |e0| |]|];
       try destruct (validate_email e0); discriminate|].
    destruct (Nat.ltb_spec 1000 (String.length c0));
      [destruct (body !! "email_address") as [[| | |e0| |]|];
       try destruct (validate_email e0); discriminate|].
    destruct (body !! "email_address") as [[| | |e0| |]|]; try discriminate.
    destruct (validate_email e0) as [e1|] eqn:He; [|discriminate].
    intros [= <- <-]. split; [reflexivity|]. split; [lia|]. eauto.
  - intros (-> & [Hlo Hhi] & e & -> & ->).
    destruct (Nat.ltb_spec (String.length c) 1); [lia|].
    destruct (Nat.ltb_spec 1000 (String.length c)); [lia|]. reflexivity.
Qed.

Lemma FeedbackCreate_validate_inl body errors :
  FeedbackCreate_validate body = inl errors ->
  errors <> [] /\ Forall (fun err => loc err ∈ model_fields) errors.
Proof.
  unfold FeedbackCreate_validate, model_fields.
  assert (Hc : forall errs,
             required (constrained_str 1 1000) "feedback_content" body = inl errs ->
             exists t, errs = [mkErrorDetails t "feedback_content"]).
  { unfold required, constrained_str. intros errs.
    destruct (body !! "feedback_content") as [[| | |c0| |]|];
      try (intros [= <-]; eauto).
    destruct (Nat.ltb (String.length c0) 1); [intros [= <-]; eauto|].
    destruct (Nat.ltb 1000 (String.length c0)); [intros [= <-]; eauto|].
    discriminate. }
  assert (He : forall errs,
             required EmailStr "email_address" body = inl errs ->
             exists t, errs = [mkErrorDetails t "email_address"]).
  { unfold required, EmailStr. intros errs.
    destruct (body !! "email_address") as [[| | |e0| |]|];
      try (intros [= <-]; eauto).
    destruct (validate_email e0); [discriminate | intros [= <-]; eauto]. }
  destruct (required (constrained_str 1 1000) "feedback_content" body)
    as [errs1|c] eqn:E1;
    destruct (required EmailStr "email_address" body) as [errs2|e] eqn:E2;
    try discriminate; intros [= <-]; simpl.
  - destruct (Hc _ eq_refl) as [t1 ->], (He _ eq_refl) as [t2 ->].
    split; [discriminate|]. repeat constructor; simpl; set_solver.
  - destruct (Hc _ eq_refl) as [t1 ->].
    split; [discriminate|]. repeat constructor; simpl; set_solver.
  - destruct (He _ eq_refl) as [t2 ->].
    split; [discriminate|]. repeat constructor; simpl; set_solver.
Qed.

(** X4: every create request whose body is a JSON object ends in one of
    three ways.  Both fields are strings within the constraints and the
    address check accepts the normalised address again: 201, and the record
    stored under the drawn id carries the content and the address normalised
    twice.  The body fails the model: 422 with a non-empty list of errors,
    each on one of the two fields, and the world is as before.  The address
    check rejects the normalised address: 500, the store is as before and
    one identifier has been drawn. *)
Theorem create_outcomes body w :
  let feedback_uuid := random_uuid (uuid4_calls w) in
  (exists c e e' e'',
      body !! "feedback_content" = Some (JStr c)
      /\ 1 <= String.length c <= 1000
      /\ body !! "email_address" = Some (JStr e)
      /\ validate_email e = Some e'
      /\ validate_email e' = Some e''
      /\ let created := Feedback.mk feedback_uuid (Some c) (Some e'') in
         app (POST_feedbacks body) w
         = (mkResponse 201 (FeedbackContent created),
            mkWorld (PyDict.setitem feedback_uuid created (feedbacks_db w))
              (S (uuid4_calls w))))
  \/ (exists errors,
        app (POST_feedbacks body) w
        = (mkResponse 422 (ErrorsContent errors), w)
        /\ errors <> []
        /\ Forall (fun err => loc err ∈ model_fields) errors)
  \/ (exists e e',
        body !! "email_address" = Some (JStr e)
        /\ validate_email e = Some e'
        /\ validate_email e' = None
        /\ app (POST_feedbacks body) w
           = (mkResponse 500 InternalServerError,
              mkWorld (feedbacks_db w) (S (uuid4_calls w)))).
Proof.
  intros feedback_uuid. unfold app, unprocessable, respond.
  destruct (FeedbackCreate_validate body) as [errors|[c e']] eqn:Hv.
  - right. left. exists errors. split; [reflexivity|].
    exact (FeedbackCreate_validate_inl _ _ Hv).
  - apply FeedbackCreate_validate_inr in Hv as (Hc & Hlen & e & He & Hn).
    rewrite create_feedback_run. cbv zeta. simpl.
    destruct (validate_email e') as [e''|] eqn:Hn'.
    + left. exists c, e, e', e''. repeat (split; [assumption|]).
      cbv zeta. rewrite (Feedback_init_ok _ _ _ _ _ Hlen Hn'). reflexivity.
    + right. right. exists e, e'. repeat (split; [assumption|]).
      unfold Feedback_init, constrained_str, EmailStr. rewrite Hn'.
      destruct (Nat.ltb_spec (String.length c) 1); [lia|].
      destruct (Nat.ltb_spec 1000 (String.length c)); [lia|]. reflexivity.
Qed.

(** X5: a required field that is absent from a create body is always
    reported.  Without [feedback_content] the request is answered 422 and
    the first error is [missing] on that field, whatever the address is;
    without [email_address] it is answered 422 and the last error is
    [missing] on that field, whatever the content is.  The world is left as
    it was. *)
Theorem create_missing_field_reported body w :
  (body !! "feedback_content" = None ->
   exists others,
     app (POST_feedbacks body) w
     = (mkResponse 422
          (ErrorsContent (mkErrorDetails missing "feedback_content" :: others)),
        w))
  /\
  (body !! "email_address" = None ->
   exists others,
     app (POST_feedbacks body) w
     = (mkResponse 422
          (ErrorsContent (others ++ [mkErrorDetails missing "email_address"])),
        w)).
Proof.
  unfold app, unprocessable, FeedbackCreate_validate. split.
  - intros Hc.
    assert (required (constrained_str 1 1000) "feedback_content" body
            = inl [mkErrorDetails missing "feedback_content"]) as ->
      by (unfold required; rewrite Hc; reflexivity).
    destruct (required EmailStr "email_address" body); eexists; reflexivity.
  - intros He.
    assert (required EmailStr "email_address" body
            = inl [mkErrorDetails missing "email_address"]) as ->
      by (unfold required; rewrite He; reflexivity).
    destruct (required (constrained_str 1 1000) "feedback_content" body)
      as [errs|c]; [exists errs | exists []]; reflexivity.
Qed.

(** A body whose two fields are strings within the constraints is stored
    under the identifier drawn, with the address as the constructor
    normalises it. *)
Lemma create_accepted body c e e' e'' w :
  body !! "feedback_content" = Some (JStr c) ->
  1 <= String.length c <= 1000 ->
  body !! "email_address" = Some (JStr e) ->
  validate_email e = Some e' ->
  validate_email e' = Some e'' ->
  let feedback_uuid := random_uuid (uuid4_calls w) in
  let created := Feedback.mk feedback_uuid (Some c) (Some e'') in
  app (POST_feedbacks body) w
  = (mkResponse 201 (FeedbackContent created),
     mkWorld (PyDict.setitem feedback_uuid created (feedbacks_db w))
       (S (uuid4_calls w))).
Proof.
  intros Hc Hlen He Hn Hn' feedback_uuid created. unfold app, respond.
  assert (FeedbackCreate_validate body = inr (FeedbackCreate.mk c e')) as ->.
  { apply FeedbackCreate_validate_inr. eauto. }
  rewrite create_feedback_run. cbv zeta. simpl.
  rewrite (Feedback_init_ok _ _ _ _ _ Hlen Hn'). reflexivity.
Qed.

(** *** Create, list and delete together *)

(** X6: [create_feedback] does not look the drawn identifier up.  When it
    is already a key of the store, the request is still answered 201, the
    record stored under that key is replaced by the new one, and neither the
    number of records nor the order of the keys changes. *)
Theorem create_collision_overwrites body c e e' e'' w :
  body !! "feedback_content" = Some (JStr c) ->
  1 <= String.length c <= 1000 ->
  body !! "email_address" = Some (JStr e) ->
  validate_email e = Some e' ->
  validate_email e' = Some e'' ->
  let feedback_uuid := random_uuid (uuid4_calls w) in
  PyDict.contains feedback_uuid (feedbacks_db w) = true ->
  let created := Feedback.mk feedback_uuid (Some c) (Some e'') in
  exists w',
    app (POST_feedbacks body) w = (mkResponse 201 (FeedbackContent created), w')
    /\ PyDict.getitem feedback_uuid (feedbacks_db w') = Some created
    /\ PyDict.len (feedbacks_db w') = PyDict.len (feedbacks_db w)
    /\ (feedbacks_db w').*1 = (feedbacks_db w).*1.
Proof.
  intros Hc Hlen He Hn Hn' feedback_uuid Hin created.
  eexists. split; [exact (create_accepted _ _ _ _ _ _ Hc Hlen He Hn Hn')|].
  simpl. split; [apply dict_getitem_setitem_eq|].
  split; [apply dict_len_setitem_old, Hin | apply dict_setitem_keys_old, Hin].
Qed.

(** X7: after a create whose identifier is new to the store, the listing is
    the previous listing followed by the created record. *)
Theorem listing_after_create body c e e' e'' w :
  body !! "feedback_content" = Some (JStr c) ->
  1 <= String.length c <= 1000 ->
  body !! "email_address" = Some (JStr e) ->
  validate_email e = Some e' ->
  validate_email e' = Some e'' ->
  let feedback_uuid := random_uuid (uuid4_calls w) in
  PyDict.contains feedback_uuid (feedbacks_db w) = false ->
  let created := Feedback.mk feedback_uuid (Some c) (Some e'') in
  exists w',
    app (POST_feedbacks body) w = (mkResponse 201 (FeedbackContent created), w')
    /\ app GET_feedbacks w'
       = (mkResponse 200
            (FeedbackListContent (PyDict.values (feedbacks_db w) ++ [created])),
          w').
Proof.
  intros Hc Hlen He Hn Hn' feedback_uuid Hfresh created.
  eexists. split; [exact (create_accepted _ _ _ _ _ _ Hc Hlen He Hn Hn')|].
  unfold app, respond, get_all_feedbacks, db_values. simpl.
  rewrite dict_setitem_new by exact Hfresh.
  unfold PyDict.values. rewrite fmap_app. reflexivity.
Qed.

(** X8: creating a record under a new identifier and then deleting that
    identifier is answered 201 and 204 and gives back the store there was
    before the create, binding for binding. *)
Theorem create_then_delete_restores body c e e' e'' w :
  body !! "feedback_content" = Some (JStr c) ->
  1 <= String.length c <= 1000 ->
  body !! "email_address" = Some (JStr e) ->
  validate_email e = Some e' ->
  validate_email e' = Some e'' ->
  let feedback_uuid := random_uuid (uuid4_calls w) in
  PyDict.contains feedback_uuid (feedbacks_db w) = false ->
  exists created w1 w2,
    app (POST_feedbacks body) w = (mkResponse 201 (FeedbackContent created), w1)
    /\ Feedback.uuid created = feedback_uuid
    /\ app (DELETE_feedback feedback_uuid) w1 = (mkResponse 204 NoContent, w2)
    /\ feedbacks_db w2 = feedbacks_db w.
Proof.
  intros Hc Hlen He Hn Hn' feedback_uuid Hfresh.
  eexists _, _, _.
  split; [exact (create_accepted _ _ _ _ _ _ Hc Hlen He Hn Hn')|].
  split; [reflexivity|].
  unfold app at 1, respond. rewrite delete_feedback_run. simpl.
  rewrite dict_delitem_setitem_new by exact Hfresh. split; reflexivity.
Qed.

Lemma keys_match_values_filter k d :
  keys_match d ->
  PyDict.values (filter (fun binding => binding.1 <> k) d)
  = filter (fun f => Feedback.uuid f <> k) (PyDict.values d).
Proof.
  unfold keys_match, PyDict.values.
  induction d as [|[k0 f0] d IH]; intros Hkeys; [reflexivity|].
  apply Forall_cons in Hkeys as [Hk Hkeys]. simpl in Hk.
  rewrite fmap_cons. simpl.
  destruct (decide (k0 = k)) as [->|Hne].
  - rewrite filter_cons_False by (simpl; auto).
    rewrite filter_cons_False by (simpl; rewrite Hk; auto). auto.
  - rewrite filter_cons_True by (simpl; auto).
    rewrite filter_cons_True by (simpl; rewrite Hk; auto).
    rewrite fmap_cons. simpl. f_equal. auto.
Qed.

(** X9: in a store whose keys are distinct and agree with the records'
    uuids, the listing after a delete answered 204 is the listing before it
    without the record of that uuid, the others in their order. *)
Theorem listing_after_delete feedback_uuid w w' :
  store_consistent w ->
  app (DELETE_feedback feedback_uuid) w = (mkResponse 204 NoContent, w') ->
  app GET_feedbacks w'
  = (mkResponse 200
       (FeedbackListContent
          (filter (fun f => Feedback.uuid f <> feedback_uuid)
             (PyDict.values (feedbacks_db w)))),
     w').
Proof.
  intros [Hwf Hkeys]. unfold app at 1, respond. rewrite delete_feedback_run.
  destruct (PyDict.delitem feedback_uuid (feedbacks_db w)) as [d'|] eqn:Hdel;
    [|discriminate].
  intros [= <-]. unfold app, respond, get_all_feedbacks, db_values. simpl.
  rewrite (dict_delitem_filter _ _ _ Hwf Hdel).
  rewrite keys_match_values_filter by exact Hkeys. reflexivity.
Qed.

(** *** Updates *)

(** X10: updating an existing record with a body that supplies only an
    accepted address stores the normalised address, keeps the content and
    the uuid, and a read of the id then returns that record. *)
Theorem update_email_only feedback_uuid stored e e' body w :
  PyDict.getitem feedback_uuid (feedbacks_db w) = Some stored ->
  body !! "feedback_content" = None ->
  body !! "email_address" = Some (JStr e) ->
  validate_email e = Some e' ->
  let updated :=
    Feedback.mk (Feedback.uuid stored) (Feedback.feedback_content stored)
      (Some e') in
  exists w',
    app (PUT_feedback feedback_uuid body) w
      = (mkResponse 200 (FeedbackContent updated), w')
    /\ app (GET_feedback feedback_uuid) w'
       = (mkResponse 200 (FeedbackContent updated), w')
    /\ (forall k, k <> feedback_uuid ->
          PyDict.getitem k (feedbacks_db w') = PyDict.getitem k (feedbacks_db w))
    /\ PyDict.len (feedbacks_db w') = PyDict.len (feedbacks_db w).
Proof.
  intros Hget Hc He Hn updated.
  assert (Hv : FeedbackUpdate_validate body =
               inr (FeedbackUpdate.mk None (Some e')
                      (supplied ["feedback_content"; "email_address"] body))).
  { unfold FeedbackUpdate_validate, defaulted, Optional, EmailStr.
    rewrite Hc, He, Hn. reflexivity. }
  pose proof (FeedbackUpdate_dump _ _ Hv) as Hdump. rewrite Hc, He in Hdump.
  destruct (update_accepted _ _ _ _ _ _ _ Hget Hv Hdump)
    as (w' & Hput & Hstored & Hframe & Hlen).
  exists w'. split; [exact Hput|]. split; [|split; assumption].
  unfold app, respond. rewrite get_feedback_run, Hstored. reflexivity.
Qed.

(** X11: updating an existing record with a body that supplies a valid
    content and an accepted address replaces both and keeps the uuid; a read
    of the id then returns that record. *)
Theorem update_both_fields feedback_uuid stored X e e' body w :
  PyDict.getitem feedback_uuid (feedbacks_db w) = Some stored ->
  1 <= String.length X <= 1000 ->
  body !! "feedback_content" = Some (JStr X) ->
  body !! "email_address" = Some (JStr e) ->
  validate_email e = Some e' ->
  let updated := Feedback.mk (Feedback.uuid stored) (Some X) (Some e') in
  exists w',
    app (PUT_feedback feedback_uuid body) w
      = (mkResponse 200 (FeedbackContent updated), w')
    /\ app (GET_feedback feedback_uuid) w'
       = (mkResponse 200 (FeedbackContent updated), w')
    /\ (forall k, k <> feedback_uuid ->
          PyDict.getitem k (feedbacks_db w') = PyDict.getitem k (feedbacks_db w))
    /\ PyDict.len (feedbacks_db w') = PyDict.len (feedbacks_db w).
Proof.
  intros Hget [Hlo Hhi] Hc He Hn updated.
  assert (Hv : FeedbackUpdate_validate body =
               inr (FeedbackUpdate.mk (Some X) (Some e')
                      (supplied ["feedback_content"; "email_address"] body))).
  { unfold FeedbackUpdate_validate, defaulted, Optional, constrained_str, EmailStr.
    rewrite Hc, He, Hn.
    destruct (Nat.ltb_spec (String.length X) 1); [lia|].
    destruct (Nat.ltb_spec 1000 (String.length X)); [lia|]. reflexivity. }
  pose proof (FeedbackUpdate_dump _ _ Hv) as Hdump. rewrite Hc, He in Hdump.
  destruct (update_accepted _ _ _ _ _ _ _ Hget Hv Hdump)
    as (w' & Hput & Hstored & Hframe & Hlen).
  exists w'. split; [exact Hput|]. split; [|split; assumption].
  unfold app, respond. rewrite get_feedback_run, Hstored. reflexivity.
Qed.

(** X12: the body of an update is validated before the id is looked up.  A
    content that is empty or longer than 1000 characters, or a rejected
    address, is answered 422 with a non-empty error list for every id, in
    the store or not, and the world is left as it was. *)
Theorem invalid_update_rejected feedback_uuid body c e w :
  (body !! "feedback_content" = Some (JStr c)
   /\ (String.length c = 0 \/ 1000 < String.length c))
  \/ (body !! "email_address" = Some (JStr e) /\ validate_email e = None) ->
  exists errors,
    app (PUT_feedback feedback_uuid body) w
    = (mkResponse 422 (ErrorsContent errors), w)
    /\ errors <> [].
Proof.
  intros Hbad. unfold app, unprocessable, FeedbackUpdate_validate.
  destruct Hbad as [[Hc Hlen]|[He Hrej]].
  - assert (exists err,
               defaulted (Optional (constrained_str 1 1000)) "feedback_content" body
               = inl [err]) as [err ->].
    { unfold defaulted, Optional, constrained_str. rewrite Hc.
      destruct (Nat.ltb_spec (String.length c) 1); [eauto|].
      destruct (Nat.ltb_spec 1000 (String.length c)); [eauto|]. lia. }
    eexists. split; [reflexivity|]. discriminate.
  - assert (defaulted (Optional EmailStr) "email_address" body
            = inl [mkErrorDetails value_error "email_address"]) as ->.
    { unfold defaulted, Optional, EmailStr. rewrite He, Hrej. reflexivity. }
    destruct (defaulted (Optional (constrained_str 1 1000)) "feedback_content" body);
      (eexists; split; [reflexivity|]).
    + simpl. intros H. apply app_eq_nil in H as [_ H]. discriminate.
    + discriminate.
Qed.

(** What an update answered 200 did. *)
Lemma update_ok_inv feedback_uuid body w c w' :
  app (PUT_feedback feedback_uuid body) w = (mkResponse 200 c, w') ->
  exists stored feedback_update entry entries,
    PyDict.getitem feedback_uuid (feedbacks_db w) = Some stored
    /\ FeedbackUpdate_validate body = inr feedback_update
    /\ model_dump_exclude_unset feedback_update = entry :: entries
    /\ c = FeedbackContent (model_copy stored (entry :: entries))
    /\ w' = mkWorld
              (PyDict.setitem feedback_uuid (model_copy stored (entry :: entries))
                 (feedbacks_db w))
              (uuid4_calls w).
Proof.
  unfold app, unprocessable, respond.
  destruct (FeedbackUpdate_validate body) as [errs|fu]; [discriminate|].
  rewrite update_feedback_run.
  destruct (PyDict.getitem feedback_uuid (feedbacks_db w)) as [stored|];
    [|discriminate].
  destruct (model_dump_exclude_unset fu) as [|entry entries] eqn:Hd;
    [discriminate|].
  intros [= <- <-]. exists stored, fu, entry, entries. auto.
Qed.

(** Merging the same dump a second time changes nothing. *)
Lemma model_copy_dump_twice m feedback_update :
  let update_data := model_dump_exclude_unset feedback_update in
  model_copy (model_copy m update_data) update_data = model_copy m update_data.
Proof.
  unfold model_dump_exclude_unset.
  destruct (bool_decide _), (bool_decide _); reflexivity.
Qed.

(** X13: an update answered 200 can be repeated: the same request, sent
    again, is answered 200 with the same record and leaves the world as the
    first one left it. *)
Theorem update_twice_same feedback_uuid body w c w' :
  app (PUT_feedback feedback_uuid body) w = (mkResponse 200 c, w') ->
  app (PUT_feedback feedback_uuid body) w' = (mkResponse 200 c, w').
Proof.
  intros H.
  apply update_ok_inv in H
    as (stored & fu & entry & entries & Hget & Hv & Hd & -> & ->).
  unfold app, respond. rewrite Hv, update_feedback_run.
  cbn [feedbacks_db uuid4_calls].
  rewrite dict_getitem_setitem_eq, Hd. cbv zeta.
  pose proof (model_copy_dump_twice stored fu) as Htwice.
  cbv zeta in Htwice. rewrite Hd in Htwice. rewrite Htwice.
  rewrite dict_setitem_setitem. reflexivity.
Qed.

Lemma keys_match_values_map k v d :
  keys_match d ->
  PyDict.values ((fun binding => if N.eqb binding.1 k then (k, v) else binding) <$> d)
  = (fun f => if N.eqb (Feedback.uuid f) k then v else f) <$> PyDict.values d.
Proof.
  unfold keys_match, PyDict.values.
  induction d as [|[k0 f0] d IH]; intros Hkeys; [reflexivity|].
  apply Forall_cons in Hkeys as [Hk Hkeys]. simpl in Hk.
  rewrite !fmap_cons. simpl. rewrite Hk.
  f_equal; [destruct (N.eqb k0 k); reflexivity | auto].
Qed.

(** X14: in a store whose keys are distinct and agree with the records'
    uuids, an update answered 200 rewrites the listing in place: the record
    of that uuid is replaced by the returned one where it stood, every other
    record and the order are as before. *)
Theorem listing_after_update feedback_uuid body w updated w' :
  store_consistent w ->
  app (PUT_feedback feedback_uuid body) w
  = (mkResponse 200 (FeedbackContent updated), w') ->
  app GET_feedbacks w'
  = (mkResponse 200
       (FeedbackListContent
          ((fun f => if N.eqb (Feedback.uuid f) feedback_uuid then updated else f)
             <$> PyDict.values (feedbacks_db w))),
     w').
Proof.
  intros [Hwf Hkeys] H.
  apply update_ok_inv in H
    as (stored & fu & entry & entries & Hget & Hv & Hd & [= ->] & ->).
  unfold app, respond, get_all_feedbacks, db_values. simpl.
  rewrite dict_setitem_old_map
    by (try exact Hwf; eapply dict_getitem_contains; eauto).
  rewrite keys_match_values_map by exact Hkeys. reflexivity.
Qed.

(** *** Identifiers *)

Lemma model_copy_uuid m update :
  Feedback.uuid (model_copy m update) = Feedback.uuid m.
Proof.
  unfold model_copy. revert m.
  induction update as [|[k v] update IH]; intros m; [reflexivity|].
  simpl. rewrite IH.
  destruct (String.eqb k "feedback_content"); [reflexivity|].
  destruct (String.eqb k "email_address"); reflexivity.
Qed.

Lemma Feedback_init_uuid uuid c e w f w' :
  Feedback_init uuid c e w = (inr f, w') -> Feedback.uuid f = uuid.
Proof.
  unfold Feedback_init.
  destruct (constrained_str _ _ _ _), (EmailStr _ _); intros [= <- _];
    reflexivity.
Qed.

Lemma keys_match_setitem k f d :
  Feedback.uuid f = k -> keys_match d -> keys_match (PyDict.setitem k f d).
Proof.
  unfold keys_match. intros Hk.
  induction d as [|[k0 f0] d IH]; simpl; intros Hkeys.
  - repeat constructor. exact Hk.
  - apply Forall_cons in Hkeys as [Hk0 Hkeys].
    destruct (N.eqb k k0); constructor; auto.
Qed.

Lemma keys_match_delitem k d d' :
  PyDict.delitem k d = Some d' -> keys_match d -> keys_match d'.
Proof.
  unfold keys_match. revert d'.
  induction d as [|[k0 f0] d IH]; simpl; intros d' H Hkeys; [discriminate|].
  apply Forall_cons in Hkeys as [Hk0 Hkeys].
  destruct (N.eqb k k0).
  - injection H as <-. exact Hkeys.
  - destruct (PyDict.delitem k d) as [d0|]; [|discriminate].
    injection H as <-. constructor; eauto.
Qed.

(** Every request keeps the keys distinct and equal to the uuid of the
    record they lead to. *)
Lemma app_consistent r w :
  store_consistent w -> store_consistent (app r w).2.
Proof.
  intros [Hwf Hkeys]. split; [apply app_wf, Hwf|].
  destruct r as [body| |u|u body|u|]; unfold app, unprocessable, respond.
  - destruct (FeedbackCreate_validate body) as [errs|fc]; [exact Hkeys|].
    rewrite create_feedback_run. cbv zeta.
    destruct (Feedback_init _ _ _ _) as [[e|f] w1] eqn:E; [exact Hkeys|].
    simpl. apply keys_match_setitem; [|exact Hkeys].
    eapply Feedback_init_uuid; eauto.
  - exact Hkeys.
  - rewrite get_feedback_run.
    destruct (PyDict.getitem u (feedbacks_db w)); exact Hkeys.
  - destruct (FeedbackUpdate_validate body) as [errs|fu]; [exact Hkeys|].
    rewrite update_feedback_run.
    destruct (PyDict.getitem u (feedbacks_db w)) as [stored|] eqn:Hget;
      [|exact Hkeys].
    destruct (model_dump_exclude_unset fu) as [|entry entries]; [exact Hkeys|].
    cbn [snd feedbacks_db]. apply keys_match_setitem; [|exact Hkeys].
    rewrite model_copy_uuid. exact (stored_uuid _ _ _ Hkeys Hget).
  - rewrite delete_feedback_run.
    destruct (PyDict.delitem u (feedbacks_db w)) eqn:E; [|exact Hkeys].
    simpl. eapply keys_match_delitem; eauto.
  - exact Hkeys.
Qed.

Lemma serve_consistent rs w :
  store_consistent w -> store_consistent (serve rs w).2.
Proof.
  revert w. induction rs as [|r rs IH]; intros w Hw; simpl; [exact Hw|].
  pose proof (app_consistent r w Hw) as Hstep.
  destruct (app r w) as [resp w1]. specialize (IH w1 Hstep).
  destruct (serve rs w1) as [resps w2]. exact IH.
Qed.

Lemma module_import_consistent w :
  module_import = Some w -> store_consistent w.
Proof.
  unfold module_import, initialize_dummy_data.
  destruct (for_each _ _ _) as [[e|[]] w1] eqn:E; intros [= <-].
  refine (for_each_preserves store_consistent _ _ _ _ _ _ E _).
  - intros dummy w0 r w'. rewrite seed_body_run. cbv zeta.
    destruct (Feedback_init _ _ _ _) as [[e|f] w2] eqn:Hf;
      intros [= _ <-] [Hwf Hkeys]; split; simpl; auto.
    + apply dict_wf_setitem, Hwf.
    + apply keys_match_setitem; [|exact Hkeys].
      eapply Feedback_init_uuid; eauto.
  - split; [apply NoDup_nil_2 | constructor].
Qed.

(** X15: from startup on, whatever requests are served (updates with
    [null] fields and colliding identifiers included), no two stored records
    share a key, and every record is stored under its own uuid: neither an
    update nor anything else changes the uuid of a record. *)
Theorem store_ids_consistent rs w0 :
  module_import = Some w0 ->
  store_consistent (serve rs w0).2.
Proof.
  intros Himport. apply serve_consistent, module_import_consistent, Himport.
Qed.

(** X16: when the address check accepts the addresses it produces, then
    from startup on, as long as no update carries a [null] field, every
    stored record has a content of 1 to 1000 characters and an accepted
    address. *)
Theorem constraints_hold_without_null rs w0 :
  (forall s s', validate_email s = Some s' -> is_Some (validate_email s')) ->
  module_import = Some w0 ->
  Forall (fun r => sets_null r = false) rs ->
  store_valid (serve rs w0).2.
Proof.
  intros Hnorm Himport Hrs.
  apply serve_store_valid; [exact Hnorm | | exact Hrs].
  apply module_import_store_valid; assumption.
Qed.

(** X17: when the address check accepts the addresses it produces, a
    request whose path id is a well-formed UUID and whose body is a JSON
    object is answered with one of the statuses of its route only: 201 or
    422 for a create, 200 for the listing and the root, 200 or 404 for a
    read, 200, 400, 404 or 422 for an update, 204 or 404 for a delete.  In
    particular no such request is answered 500: the lookups that could
    raise [KeyError] are guarded by the membership test. *)
Theorem status_table r w :
  (forall s s', validate_email s = Some s' -> is_Some (validate_email s')) ->
  let s := status (app r w).1 in
  match r with
  | POST_feedbacks _ => s = 201%N \/ s = 422%N
  | GET_feedbacks | GET_root => s = 200%N
  | GET_feedback _ => s = 200%N \/ s = 404%N
  | PUT_feedback _ _ => s = 200%N \/ s = 400%N \/ s = 404%N \/ s = 422%N
  | DELETE_feedback _ => s = 204%N \/ s = 404%N
  end.
Proof.
  intros Hnorm s. subst s.
  destruct r as [body| |u|u body|u|]; unfold app, unprocessable, respond.
  - destruct (FeedbackCreate_validate body) as [errs|[c e']] eqn:Hv; [auto|].
    apply FeedbackCreate_validate_inr in Hv as (Hc & Hlen & e & He & Hn).
    destruct (Hnorm _ _ Hn) as [e'' Hn'].
    rewrite create_feedback_run. cbv zeta. simpl.
    rewrite (Feedback_init_ok _ _ _ _ _ Hlen Hn'). auto.
  - reflexivity.
  - rewrite get_feedback_run.
    destruct (PyDict.getitem u (feedbacks_db w)); auto.
  - destruct (FeedbackUpdate_validate body) as [errs|fu]; [simpl; auto|].
    rewrite update_feedback_run.
    destruct (PyDict.getitem u (feedbacks_db w)); [|simpl; auto].
    destruct (model_dump_exclude_unset fu); simpl; auto.
  - rewrite delete_feedback_run.
    destruct (PyDict.delitem u (feedbacks_db w)); auto.
  - reflexivity.
Qed.

(** *** Failing requests among others *)

(** A request answered with an error status other than 500 leaves the whole
    world, the number of identifiers drawn included, as it was. *)
Lemma client_error_keeps_world r w :
  is_error (app r w).1 = true ->
  status (app r w).1 <> 500%N ->
  (app r w).2 = w.
Proof.
  destruct r as [body| |u|u body|u|]; unfold app, unprocessable, respond.
  - destruct (FeedbackCreate_validate body) as [errs|fc]; [reflexivity|].
    rewrite create_feedback_run. cbv zeta.
    destruct (Feedback_init _ _ _ _) as [[e|f] w1] eqn:E.
    + assert (exists errs, e = ValidationError errs) as [errs ->].
      { unfold Feedback_init, raise, mret, handler_ret in E.
        destruct (constrained_str _ _ _ _), (EmailStr _ _);
          injection E as <- _ || discriminate E; eauto. }
      simpl. intros _ H. contradiction H. reflexivity.
    + simpl. discriminate.
  - reflexivity.
  - rewrite get_feedback_run.
    destruct (PyDict.getitem u (feedbacks_db w)); reflexivity.
  - destruct (FeedbackUpdate_validate body) as [errs|fu]; [reflexivity|].
    rewrite update_feedback_run.
    destruct (PyDict.getitem u (feedbacks_db w)); [|reflexivity].
    destruct (model_dump_exclude_unset fu); [reflexivity|].
    simpl. discriminate.
  - rewrite delete_feedback_run.
    destruct (PyDict.delitem u (feedbacks_db w)); [|reflexivity].
    simpl. discriminate.
  - reflexivity.
Qed.

Lemma serve_app rs1 rs2 w :
  serve (rs1 ++ rs2) w
  = ((serve rs1 w).1 ++ (serve rs2 (serve rs1 w).2).1,
     (serve rs2 (serve rs1 w).2).2).
Proof.
  revert w. induction rs1 as [|r rs1 IH]; intros w; simpl.
  - destruct (serve rs2 w); reflexivity.
  - destruct (app r w) as [resp w1]. rewrite IH.
    destruct (serve rs1 w1) as [resps w2]. reflexivity.
Qed.

(** X18: a request answered 400, 404 or 422 in the middle of a sequence
    does not affect the others: the requests after it get the answers, and
    the service ends in the world, that they would have had without it. *)
Theorem failed_request_is_skipped rs1 r rs2 w :
  let w1 := (serve rs1 w).2 in
  is_error (app r w1).1 = true ->
  status (app r w1).1 <> 500%N ->
  (serve (rs1 ++ r :: rs2) w).1
  = (serve rs1 w).1 ++ (app r w1).1 :: (serve rs2 w1).1
  /\ (serve (rs1 ++ rs2) w).1 = (serve rs1 w).1 ++ (serve rs2 w1).1
  /\ (serve (rs1 ++ r :: rs2) w).2 = (serve (rs1 ++ rs2) w).2.
Proof.
  intros w1 Herr Hne. rewrite !serve_app. fold w1. simpl.
  pose proof (client_error_keeps_world r w1 Herr Hne) as Hsame.
  destruct (app r w1) as [resp w2]. simpl in Hsame. subst w2.
  destruct (serve rs2 w1) as [resps w3]. auto.
Qed.

End FeedbackAPI.

(** ** The model on concrete requests *)

Example UUID_str_example :
  UUID_str 0x123e4567e89b12d3a456426614174000%N
  = "123e4567-e89b-12d3-a456-426614174000".
Proof. reflexivity. Qed.

Lemma sample_validate_email_fixed s s' :
  sample_validate_email s = Some s' -> s' = s.
Proof.
  unfold sample_validate_email. destruct (str_partition "@" s).
  destruct (_ && _); congruence.
Qed.

Lemma sample_validate_email_normalized s s' :
  sample_validate_email s = Some s' -> is_Some (sample_validate_email s').
Proof.
  intros H. pose proof (sample_validate_email_fixed _ _ H) as ->. eauto.
Qed.

Lemma sample_uuid4_distinct : NoDup (sample_uuid4 <$> seq 0 10).
Proof. apply (bool_decide_unpack _). vm_compute. exact I. Qed.

Lemma sample_seed_emails :
  Forall (fun dummy => sample_validate_email dummy.2 = Some dummy.2)
    dummy_feedbacks.
Proof. unfold dummy_feedbacks. repeat constructor. Qed.

Lemma sample_world_wf : PyDict.wf (feedbacks_db sample_world).
Proof. apply (bool_decide_unpack _). vm_compute. exact I. Qed.

(** POST /feedbacks {"feedback_content":"Great!","email_address":"a@b.com"}
    is answered 201 with the generated id, content "Great!" and email
    "a@b.com". *)
Example post_scenario :
  (app sample_uuid4 sample_validate_email
     (POST_feedbacks
        (<["feedback_content" := JStr "Great!"]>
           {["email_address" := JStr "a@b.com"]}))
     sample_world).1
  = mkResponse 201
      (FeedbackContent
         (Feedback.mk (sample_uuid4 2) (Some "Great!") (Some "a@b.com"))).
Proof. vm_compute. reflexivity. Qed.

(** GET /feedbacks/{unknown-id} is answered 404 with a message naming the
    id. *)
Example get_unknown_scenario :
  (app sample_uuid4 sample_validate_email
     (GET_feedback 0x123e4567e89b12d3a456426614174000%N) sample_world).1
  = mkResponse 404
      (DetailContent
         "Feedback with UUID 123e4567-e89b-12d3-a456-426614174000 not found").
Proof. vm_compute. reflexivity. Qed.

(** A content of 1001 characters is refused, one of 1000 is accepted. *)
Example content_length_bounds :
  (app sample_uuid4 sample_validate_email
     (POST_feedbacks
        (<["feedback_content" := JStr (str_repeat "a" 1001)]>
           {["email_address" := JStr "a@b.com"]}))
     sample_world).1
  = mkResponse 422
      (ErrorsContent [mkErrorDetails string_too_long "feedback_content"])
  /\ status
       (app sample_uuid4 sample_validate_email
          (POST_feedbacks
             (<["feedback_content" := JStr (str_repeat "a" 1000)]>
                {["email_address" := JStr "a@b.com"]}))
          sample_world).1
     = 201%N.
Proof. split; vm_compute; reflexivity. Qed.

(** ** The theorems above at concrete inputs *)

Lemma error_response_keeps_store_witness :
  is_error
    (app sample_uuid4 sample_validate_email (GET_feedback 5%N) sample_world).1
  = true
  /\ feedbacks_db
       (app sample_uuid4 sample_validate_email (GET_feedback 5%N) sample_world).2
     = feedbacks_db sample_world.
Proof.
  split; [reflexivity|].
  apply (error_response_keeps_store sample_uuid4 sample_validate_email).
  reflexivity.
Defined.

Lemma empty_update_rejected_witness :
  PyDict.contains (sample_uuid4 0) (feedbacks_db sample_world) = true
  /\ (∅ : gmap string json) !! "feedback_content" = None
  /\ (∅ : gmap string json) !! "email_address" = None
  /\ exists detail,
       app sample_uuid4 sample_validate_email
         (PUT_feedback (sample_uuid4 0) ∅) sample_world
       = (mkResponse 400 (DetailContent detail), sample_world)
       /\ detail = "At least one field must be provided for update"
       /\ String.prefix "at least one field must be provided" (str_lower detail)
          = true.
Proof.
  split; [reflexivity|]. split; [reflexivity|]. split; [reflexivity|].
  apply (empty_update_rejected sample_uuid4 sample_validate_email);
    reflexivity.
Defined.

Lemma update_unknown_id_not_found_witness :
  PyDict.contains 5%N (feedbacks_db sample_world) = false
  /\ (∅ : gmap string json) !! "feedback_content" = None
  /\ (∅ : gmap string json) !! "email_address" = None
  /\ app sample_uuid4 sample_validate_email (PUT_feedback 5%N ∅) sample_world
     = (mkResponse 404
          (DetailContent
             "Feedback with UUID 00000000-0000-0000-0000-000000000005 not found"),
        sample_world).
Proof.
  split; [reflexivity|]. split; [reflexivity|]. split; [reflexivity|].
  apply (update_unknown_id_not_found sample_uuid4 sample_validate_email);
    reflexivity.
Defined.

Lemma update_content_only_witness :
  let stored := Feedback.mk (sample_uuid4 0) (Some "Great!") (Some "a@b.com") in
  let body : gmap string json := {["feedback_content" := JStr "Even better"]} in
  let updated :=
    Feedback.mk (sample_uuid4 0) (Some "Even better") (Some "a@b.com") in
  PyDict.getitem (sample_uuid4 0) (feedbacks_db sample_world) = Some stored
  /\ 1 <= String.length "Even better" <= 1000
  /\ body !! "feedback_content" = Some (JStr "Even better")
  /\ body !! "email_address" = None
  /\ exists w',
       app sample_uuid4 sample_validate_email
         (PUT_feedback (sample_uuid4 0) body) sample_world
       = (mkResponse 200 (FeedbackContent updated), w')
       /\ PyDict.getitem (sample_uuid4 0) (feedbacks_db w') = Some updated
       /\ (forall k, k <> sample_uuid4 0 ->
             PyDict.getitem k (feedbacks_db w')
             = PyDict.getitem k (feedbacks_db sample_world))
       /\ PyDict.len (feedbacks_db w') = PyDict.len (feedbacks_db sample_world).
Proof.
  intros stored body updated.
  split; [reflexivity|]. split; [simpl; lia|].
  split; [reflexivity|]. split; [reflexivity|].
  apply (update_content_only sample_uuid4 sample_validate_email
           (sample_uuid4 0) stored "Even better" body sample_world);
    [reflexivity | simpl; lia | reflexivity | reflexivity].
Defined.

Lemma null_field_update_accepted_witness :
  let stored := Feedback.mk (sample_uuid4 0) (Some "Great!") (Some "a@b.com") in
  let null_content : gmap string json :=
    <["feedback_content" := JNull]> {["email_address" := JStr "new@b.com"]} in
  let both_null : gmap string json :=
    <["feedback_content" := JNull]> {["email_address" := JNull]} in
  let after_first := Feedback.mk (sample_uuid4 0) None (Some "new@b.com") in
  let after_second := Feedback.mk (sample_uuid4 0) None None in
  PyDict.getitem (sample_uuid4 0) (feedbacks_db sample_world) = Some stored
  /\ null_content !! "feedback_content" = Some JNull
  /\ null_content !! "email_address" = Some (JStr "new@b.com")
  /\ sample_validate_email "new@b.com" = Some "new@b.com"
  /\ both_null !! "email_address" = Some JNull
  /\ both_null !! "feedback_content" = Some JNull
  /\ (exists w',
        app sample_uuid4 sample_validate_email
          (PUT_feedback (sample_uuid4 0) null_content) sample_world
        = (mkResponse 200 (FeedbackContent after_first), w')
        /\ PyDict.getitem (sample_uuid4 0) (feedbacks_db w') = Some after_first)
  /\ (exists w',
        app sample_uuid4 sample_validate_email
          (PUT_feedback (sample_uuid4 0) both_null) sample_world
        = (mkResponse 200 (FeedbackContent after_second), w')
        /\ PyDict.getitem (sample_uuid4 0) (feedbacks_db w') = Some after_second).
Proof.
  intros stored null_content both_null after_first after_second.
  split; [reflexivity|]. split; [reflexivity|]. split; [reflexivity|].
  split; [reflexivity|]. split; [reflexivity|]. split; [reflexivity|]. split.
  - apply (proj1 (null_field_update_accepted sample_uuid4 sample_validate_email
                    (sample_uuid4 0) stored null_content sample_world eq_refl)
             eq_refl (Some "new@b.com")).
    right. right. exists "new@b.com", "new@b.com".
    split; [reflexivity|]. split; reflexivity.
  - apply (proj2 (null_field_update_accepted sample_uuid4 sample_validate_email
                    (sample_uuid4 0) stored both_null sample_world eq_refl)
             eq_refl None).
    right. left. split; reflexivity.
Defined.

(** C10, as first worded, at a body that gives [null] for the content and an
    address the check rejects: the request is answered 422, not accepted,
    and the stored record keeps its content. *)
Lemma null_update_with_rejected_field_counterexample :
  let stored := Feedback.mk (sample_uuid4 0) (Some "Great!") (Some "a@b.com") in
  let body : gmap string json :=
    <["feedback_content" := JNull]>
      {["email_address" := JStr "not an address"]} in
  PyDict.getitem (sample_uuid4 0) (feedbacks_db sample_world) = Some stored
  /\ body !! "feedback_content" = Some JNull
  /\ app sample_uuid4 sample_validate_email
       (PUT_feedback (sample_uuid4 0) body) sample_world
     = (mkResponse 422
          (ErrorsContent [mkErrorDetails value_error "email_address"]),
        sample_world)
  /\ ~ (exists feedback w',
          app sample_uuid4 sample_validate_email
            (PUT_feedback (sample_uuid4 0) body) sample_world
          = (mkResponse 200 (FeedbackContent feedback), w')).
Proof.
  intros stored body.
  split; [reflexivity|]. split; [reflexivity|].
  assert (H : app sample_uuid4 sample_validate_email
                (PUT_feedback (sample_uuid4 0) body) sample_world
              = (mkResponse 422
                   (ErrorsContent [mkErrorDetails value_error "email_address"]),
                 sample_world)) by (vm_compute; reflexivity).
  split; [exact H|].
  intros (feedback & w' & H'). rewrite H in H'. discriminate H'.
Qed.

Lemma delete_then_not_found_witness :
  let gone :=
    mkResponse 404
      (DetailContent
         ("Feedback with UUID " +:+ UUID_str (sample_uuid4 1) +:+ " not found")) in
  PyDict.wf (feedbacks_db sample_world)
  /\ PyDict.contains (sample_uuid4 1) (feedbacks_db sample_world) = true
  /\ exists w',
       app sample_uuid4 sample_validate_email
         (DELETE_feedback (sample_uuid4 1)) sample_world
       = (mkResponse 204 NoContent, w')
       /\ PyDict.contains (sample_uuid4 1) (feedbacks_db w') = false
       /\ S (PyDict.len (feedbacks_db w')) = PyDict.len (feedbacks_db sample_world)
       /\ (forall k, k <> sample_uuid4 1 ->
             PyDict.getitem k (feedbacks_db w')
             = PyDict.getitem k (feedbacks_db sample_world))
       /\ app sample_uuid4 sample_validate_email
            (GET_feedback (sample_uuid4 1)) w' = (gone, w')
       /\ app sample_uuid4 sample_validate_email
            (DELETE_feedback (sample_uuid4 1)) w' = (gone, w').
Proof.
  intros gone.
  split; [exact sample_world_wf|].
  split; [reflexivity|].
  apply (delete_then_not_found sample_uuid4 sample_validate_email
           (sample_uuid4 1) sample_world);
    [exact sample_world_wf | reflexivity].
Defined.

Lemma invalid_create_rejected_witness :
  let body : gmap string json :=
    <["feedback_content" := JStr ""]> {["email_address" := JStr "a@b.com"]} in
  ((body !! "feedback_content" = Some (JStr "")
    /\ (String.length "" = 0 \/ 1000 < String.length ""))
   \/ (body !! "email_address" = Some (JStr "a@b.com")
       /\ sample_validate_email "a@b.com" = None))
  /\ exists errors,
       app sample_uuid4 sample_validate_email (POST_feedbacks body) sample_world
       = (mkResponse 422 (ErrorsContent errors), sample_world)
       /\ errors <> [].
Proof.
  intros body.
  assert (H : (body !! "feedback_content" = Some (JStr "")
               /\ (String.length "" = 0 \/ 1000 < String.length ""))
              \/ (body !! "email_address" = Some (JStr "a@b.com")
                  /\ sample_validate_email "a@b.com" = None)).
  { left. split; [reflexivity | left; reflexivity]. }
  split; [exact H|].
  exact (invalid_create_rejected sample_uuid4 sample_validate_email
           body "" "a@b.com" sample_world H).
Defined.

Lemma create_then_get_normalized_witness :
  let body : gmap string json :=
    <["feedback_content" := JStr "Great!"]>
      {["email_address" := JStr "User@EXAMPLE.COM"]} in
  let created :=
    Feedback.mk (sample_uuid4 2) (Some "Great!") (Some "User@example.com") in
  1 <= String.length "Great!" <= 1000
  /\ normalizing_validate_email "User@EXAMPLE.COM" = Some "User@example.com"
  /\ normalizing_validate_email "User@example.com" = Some "User@example.com"
  /\ body !! "feedback_content" = Some (JStr "Great!")
  /\ body !! "email_address" = Some (JStr "User@EXAMPLE.COM")
  /\ PyDict.contains (sample_uuid4 2) (feedbacks_db sample_world) = false
  /\ exists w',
       app sample_uuid4 normalizing_validate_email (POST_feedbacks body)
         sample_world
       = (mkResponse 201 (FeedbackContent created), w')
       /\ app sample_uuid4 normalizing_validate_email
            (GET_feedback (sample_uuid4 2)) w'
          = (mkResponse 200 (FeedbackContent created), w')
       /\ PyDict.len (feedbacks_db w') = S (PyDict.len (feedbacks_db sample_world))
       /\ ("User@example.com" = "User@EXAMPLE.COM" ->
           "User@example.com" = "User@EXAMPLE.COM").
Proof.
  intros body created.
  split; [simpl; lia|]. split; [reflexivity|]. split; [reflexivity|].
  split; [reflexivity|]. split; [reflexivity|]. split; [reflexivity|].
  apply (create_then_get_normalized sample_uuid4 normalizing_validate_email
           "Great!" "User@EXAMPLE.COM" "User@example.com" "User@example.com"
           body sample_world);
    [simpl; lia | reflexivity | reflexivity | reflexivity | reflexivity
    | reflexivity].
Defined.

(** C3, as first worded, at an address that is valid but not in normalised
    form: the check accepts "User@EXAMPLE.COM", the create request is
    answered 201, and the returned record carries "User@example.com", not
    the given address. *)
Lemma create_given_email_counterexample :
  let body : gmap string json :=
    <["feedback_content" := JStr "Great!"]>
      {["email_address" := JStr "User@EXAMPLE.COM"]} in
  1 <= String.length "Great!" <= 1000
  /\ is_Some (normalizing_validate_email "User@EXAMPLE.COM")
  /\ (app sample_uuid4 normalizing_validate_email (POST_feedbacks body)
        sample_world).1
     = mkResponse 201
         (FeedbackContent
            (Feedback.mk (sample_uuid4 2) (Some "Great!")
               (Some "User@example.com")))
  /\ (app sample_uuid4 normalizing_validate_email (POST_feedbacks body)
        sample_world).1
     <> mkResponse 201
          (FeedbackContent
             (Feedback.mk (sample_uuid4 2) (Some "Great!")
                (Some "User@EXAMPLE.COM"))).
Proof.
  intros body.
  assert (H : (app sample_uuid4 normalizing_validate_email (POST_feedbacks body)
                 sample_world).1
              = mkResponse 201
                  (FeedbackContent
                     (Feedback.mk (sample_uuid4 2) (Some "Great!")
                        (Some "User@example.com"))))
    by (vm_compute; reflexivity).
  split; [simpl; lia|]. split; [vm_compute; eauto|]. split; [exact H|].
  rewrite H. discriminate.
Qed.

Lemma startup_lists_ten_records_witness :
  NoDup (sample_uuid4 <$> seq 0 10)
  /\ Forall (fun dummy => sample_validate_email dummy.2 = Some dummy.2)
       dummy_feedbacks
  /\ exists w feedbacks,
       module_import sample_uuid4 sample_validate_email = Some w
       /\ app sample_uuid4 sample_validate_email GET_feedbacks w
          = (mkResponse 200 (FeedbackListContent feedbacks), w)
       /\ length feedbacks = 10
       /\ feedbacks =
            imap (fun i dummy =>
                    Feedback.mk (sample_uuid4 i) (Some dummy.1) (Some dummy.2))
              dummy_feedbacks.
Proof.
  split; [exact sample_uuid4_distinct|].
  split; [exact sample_seed_emails|].
  exact (startup_lists_ten_records sample_uuid4 sample_validate_email
           sample_uuid4_distinct sample_seed_emails).
Defined.

(** ** A [null] update against the field constraints *)

(** C1: right after startup every stored record meets the field constraints;
    PUT /feedbacks/{id of the first seed record} with the body
    {"feedback_content": null} is then answered 200, and the store holds a
    record whose content is [None], so the constraints no longer hold. *)
Theorem null_update_breaks_field_constraints :
  let first := sample_uuid4 0 in
  let body : gmap string json := {["feedback_content" := JNull]} in
  let nulled := Feedback.mk first None (Some "john.doe@example.com") in
  exists w0 w1,
    module_import sample_uuid4 sample_validate_email = Some w0
    /\ store_valid sample_validate_email w0
    /\ app sample_uuid4 sample_validate_email (PUT_feedback first body) w0
       = (mkResponse 200 (FeedbackContent nulled), w1)
    /\ PyDict.getitem first (feedbacks_db w1) = Some nulled
    /\ valid_feedback sample_validate_email nulled = false
    /\ ~ store_valid sample_validate_email w1.
Proof.
  intros first body nulled.
  assert (exists w0, module_import sample_uuid4 sample_validate_email = Some w0)
    as [w0 Himport].
  { vm_compute. eexists. reflexivity. }
  exists w0, (app sample_uuid4 sample_validate_email (PUT_feedback first body) w0).2.
  split; [exact Himport|].
  split.
  { apply module_import_store_valid with (random_uuid := sample_uuid4);
      [exact sample_validate_email_normalized | exact Himport]. }
  revert Himport. vm_compute. intros [= <-].
  split; [reflexivity|]. split; [reflexivity|]. split; [reflexivity|].
  intros H. apply Forall_cons in H as [H _]. discriminate H.
Qed.

(** ** The further properties at concrete inputs *)

Lemma sample_world_consistent : store_consistent sample_world.
Proof. split; [exact sample_world_wf | repeat constructor]. Qed.

Lemma unknown_id_not_found_witness :
  let gone :=
    mkResponse 404
      (DetailContent
         "Feedback with UUID 00000000-0000-0000-0000-000000000005 not found") in
  PyDict.contains 5%N (feedbacks_db sample_world) = false
  /\ app sample_uuid4 sample_validate_email (GET_feedback 5%N) sample_world
     = (gone, sample_world)
  /\ app sample_uuid4 sample_validate_email (DELETE_feedback 5%N) sample_world
     = (gone, sample_world)
  /\ (forall body feedback_update,
        FeedbackUpdate_validate sample_validate_email body = inr feedback_update ->
        app sample_uuid4 sample_validate_email (PUT_feedback 5%N body) sample_world
        = (gone, sample_world)).
Proof.
  intros gone. split; [reflexivity|].
  exact (unknown_id_not_found sample_uuid4 sample_validate_email 5%N
           sample_world eq_refl).
Defined.

Lemma listing_and_reads_agree_witness :
  store_consistent sample_world
  /\ (forall f, f ∈ PyDict.values (feedbacks_db sample_world) ->
                app sample_uuid4 sample_validate_email
                  (GET_feedback (Feedback.uuid f)) sample_world
                = (mkResponse 200 (FeedbackContent f), sample_world))
  /\ (forall feedback_uuid f,
        app sample_uuid4 sample_validate_email
          (GET_feedback feedback_uuid) sample_world
        = (mkResponse 200 (FeedbackContent f), sample_world) ->
        f ∈ PyDict.values (feedbacks_db sample_world)
        /\ Feedback.uuid f = feedback_uuid).
Proof.
  split; [exact sample_world_consistent|].
  exact (listing_and_reads_agree sample_uuid4 sample_validate_email
           sample_world sample_world_consistent).
Defined.

Lemma create_missing_field_reported_witness :
  let no_content : gmap string json := {["email_address" := JStr "a@b.com"]} in
  let no_email : gmap string json := {["feedback_content" := JStr ""]} in
  no_content !! "feedback_content" = None
  /\ no_email !! "email_address" = None
  /\ (exists others,
        app sample_uuid4 sample_validate_email (POST_feedbacks no_content)
          sample_world
        = (mkResponse 422
             (ErrorsContent
                (mkErrorDetails missing "feedback_content" :: others)),
           sample_world))
  /\ (exists others,
        app sample_uuid4 sample_validate_email (POST_feedbacks no_email)
          sample_world
        = (mkResponse 422
             (ErrorsContent
                (others ++ [mkErrorDetails missing "email_address"])),
           sample_world)).
Proof.
  intros no_content no_email.
  split; [reflexivity|]. split; [reflexivity|]. split.
  - apply (proj1 (create_missing_field_reported sample_uuid4
                    sample_validate_email no_content sample_world)).
    reflexivity.
  - apply (proj2 (create_missing_field_reported sample_uuid4
                    sample_validate_email no_email sample_world)).
    reflexivity.
Defined.

Lemma create_collision_overwrites_witness :
  let body : gmap string json :=
    <["feedback_content" := JStr "Again"]> {["email_address" := JStr "c@d.org"]} in
  let w := mkWorld (feedbacks_db sample_world) 0 in
  let created := Feedback.mk (sample_uuid4 0) (Some "Again") (Some "c@d.org") in
  body !! "feedback_content" = Some (JStr "Again")
  /\ 1 <= String.length "Again" <= 1000
  /\ body !! "email_address" = Some (JStr "c@d.org")
  /\ sample_validate_email "c@d.org" = Some "c@d.org"
  /\ PyDict.contains (sample_uuid4 (uuid4_calls w)) (feedbacks_db w) = true
  /\ exists w',
       app sample_uuid4 sample_validate_email (POST_feedbacks body) w
       = (mkResponse 201 (FeedbackContent created), w')
       /\ PyDict.getitem (sample_uuid4 0) (feedbacks_db w') = Some created
       /\ PyDict.len (feedbacks_db w') = PyDict.len (feedbacks_db w)
       /\ (feedbacks_db w').*1 = (feedbacks_db w).*1.
Proof.
  intros body w created.
  split; [reflexivity|]. split; [simpl; lia|]. split; [reflexivity|].
  split; [reflexivity|]. split; [reflexivity|].
  apply (create_collision_overwrites sample_uuid4 sample_validate_email
           body "Again" "c@d.org" "c@d.org" "c@d.org" w);
    [reflexivity | simpl; lia | reflexivity | reflexivity | reflexivity
    | reflexivity].
Defined.

Lemma listing_after_create_witness :
  let body : gmap string json :=
    <["feedback_content" := JStr "Great!"]> {["email_address" := JStr "a@b.com"]} in
  let created := Feedback.mk (sample_uuid4 2) (Some "Great!") (Some "a@b.com") in
  body !! "feedback_content" = Some (JStr "Great!")
  /\ 1 <= String.length "Great!" <= 1000
  /\ body !! "email_address" = Some (JStr "a@b.com")
  /\ sample_validate_email "a@b.com" = Some "a@b.com"
  /\ PyDict.contains (sample_uuid4 2) (feedbacks_db sample_world) = false
  /\ exists w',
       app sample_uuid4 sample_validate_email (POST_feedbacks body) sample_world
       = (mkResponse 201 (FeedbackContent created), w')
       /\ app sample_uuid4 sample_validate_email GET_feedbacks w'
          = (mkResponse 200
               (FeedbackListContent
                  (PyDict.values (feedbacks_db sample_world) ++ [created])),
             w').
Proof.
  intros body created.
  split; [reflexivity|]. split; [simpl; lia|]. split; [reflexivity|].
  split; [reflexivity|]. split; [reflexivity|].
  apply (listing_after_create sample_uuid4 sample_validate_email
           body "Great!" "a@b.com" "a@b.com" "a@b.com" sample_world);
    [reflexivity | simpl; lia | reflexivity | reflexivity | reflexivity
    | reflexivity].
Defined.

Lemma create_then_delete_restores_witness :
  let body : gmap string json :=
    <["feedback_content" := JStr "Great!"]> {["email_address" := JStr "a@b.com"]} in
  body !! "feedback_content" = Some (JStr "Great!")
  /\ 1 <= String.length "Great!" <= 1000
  /\ body !! "email_address" = Some (JStr "a@b.com")
  /\ sample_validate_email "a@b.com" = Some "a@b.com"
  /\ PyDict.contains (sample_uuid4 2) (feedbacks_db sample_world) = false
  /\ exists created w1 w2,
       app sample_uuid4 sample_validate_email (POST_feedbacks body) sample_world
       = (mkResponse 201 (FeedbackContent created), w1)
       /\ Feedback.uuid created = sample_uuid4 2
       /\ app sample_uuid4 sample_validate_email
            (DELETE_feedback (sample_uuid4 2)) w1
          = (mkResponse 204 NoContent, w2)
       /\ feedbacks_db w2 = feedbacks_db sample_world.
Proof.
  intros body.
  split; [reflexivity|]. split; [simpl; lia|]. split; [reflexivity|].
  split; [reflexivity|]. split; [reflexivity|].
  apply (create_then_delete_restores sample_uuid4 sample_validate_email
           body "Great!" "a@b.com" "a@b.com" "a@b.com" sample_world);
    [reflexivity | simpl; lia | reflexivity | reflexivity | reflexivity
    | reflexivity].
Defined.

Lemma listing_after_delete_witness :
  let w' :=
    mkWorld
      [ (sample_uuid4 1,
         Feedback.mk (sample_uuid4 1) (Some "Fast delivery")
           (Some "sarah.smith@example.com")) ] 2 in
  store_consistent sample_world
  /\ app sample_uuid4 sample_validate_email
       (DELETE_feedback (sample_uuid4 0)) sample_world
     = (mkResponse 204 NoContent, w')
  /\ app sample_uuid4 sample_validate_email GET_feedbacks w'
     = (mkResponse 200
          (FeedbackListContent
             (filter (fun f => Feedback.uuid f <> sample_uuid4 0)
                (PyDict.values (feedbacks_db sample_world)))),
        w').
Proof.
  intros w'. split; [exact sample_world_consistent|].
  split; [reflexivity|].
  apply (listing_after_delete sample_uuid4 sample_validate_email
           (sample_uuid4 0) sample_world w' sample_world_consistent).
  reflexivity.
Defined.

Lemma update_email_only_witness :
  let stored := Feedback.mk (sample_uuid4 0) (Some "Great!") (Some "a@b.com") in
  let body : gmap string json := {["email_address" := JStr "new@b.com"]} in
  let updated := Feedback.mk (sample_uuid4 0) (Some "Great!") (Some "new@b.com") in
  PyDict.getitem (sample_uuid4 0) (feedbacks_db sample_world) = Some stored
  /\ body !! "feedback_content" = None
  /\ body !! "email_address" = Some (JStr "new@b.com")
  /\ sample_validate_email "new@b.com" = Some "new@b.com"
  /\ exists w',
       app sample_uuid4 sample_validate_email
         (PUT_feedback (sample_uuid4 0) body) sample_world
       = (mkResponse 200 (FeedbackContent updated), w')
       /\ app sample_uuid4 sample_validate_email (GET_feedback (sample_uuid4 0)) w'
          = (mkResponse 200 (FeedbackContent updated), w')
       /\ (forall k, k <> sample_uuid4 0 ->
             PyDict.getitem k (feedbacks_db w')
             = PyDict.getitem k (feedbacks_db sample_world))
       /\ PyDict.len (feedbacks_db w') = PyDict.len (feedbacks_db sample_world).
Proof.
  intros stored body updated.
  split; [reflexivity|]. split; [reflexivity|]. split; [reflexivity|].
  split; [reflexivity|].
  apply (update_email_only sample_uuid4 sample_validate_email
           (sample_uuid4 0) stored "new@b.com" "new@b.com" body sample_world);
    reflexivity.
Defined.

Lemma update_both_fields_witness :
  let stored := Feedback.mk (sample_uuid4 0) (Some "Great!") (Some "a@b.com") in
  let body : gmap string json :=
    <["feedback_content" := JStr "Even better"]>
      {["email_address" := JStr "new@b.com"]} in
  let updated :=
    Feedback.mk (sample_uuid4 0) (Some "Even better") (Some "new@b.com") in
  PyDict.getitem (sample_uuid4 0) (feedbacks_db sample_world) = Some stored
  /\ 1 <= String.length "Even better" <= 1000
  /\ body !! "feedback_content" = Some (JStr "Even better")
  /\ body !! "email_address" = Some (JStr "new@b.com")
  /\ sample_validate_email "new@b.com" = Some "new@b.com"
  /\ exists w',
       app sample_uuid4 sample_validate_email
         (PUT_feedback (sample_uuid4 0) body) sample_world
       = (mkResponse 200 (FeedbackContent updated), w')
       /\ app sample_uuid4 sample_validate_email (GET_feedback (sample_uuid4 0)) w'
          = (mkResponse 200 (FeedbackContent updated), w')
       /\ (forall k, k <> sample_uuid4 0 ->
             PyDict.getitem k (feedbacks_db w')
             = PyDict.getitem k (feedbacks_db sample_world))
       /\ PyDict.len (feedbacks_db w') = PyDict.len (feedbacks_db sample_world).
Proof.
  intros stored body updated.
  split; [reflexivity|]. split; [simpl; lia|]. split; [reflexivity|].
  split; [reflexivity|]. split; [reflexivity|].
  apply (update_both_fields sample_uuid4 sample_validate_email
           (sample_uuid4 0) stored "Even better" "new@b.com" "new@b.com" body
           sample_world);
    [reflexivity | simpl; lia | reflexivity | reflexivity | reflexivity].
Defined.

Lemma invalid_update_rejected_witness :
  let body : gmap string json := {["email_address" := JStr "not an address"]} in
  ((body !! "feedback_content" = Some (JStr "")
    /\ (String.length "" = 0 \/ 1000 < String.length ""))
   \/ (body !! "email_address" = Some (JStr "not an address")
       /\ sample_validate_email "not an address" = None))
  /\ PyDict.contains 5%N (feedbacks_db sample_world) = false
  /\ exists errors,
       app sample_uuid4 sample_validate_email (PUT_feedback 5%N body) sample_world
       = (mkResponse 422 (ErrorsContent errors), sample_world)
       /\ errors <> [].
Proof.
  intros body.
  assert (H : (body !! "feedback_content" = Some (JStr "")
               /\ (String.length "" = 0 \/ 1000 < String.length ""))
              \/ (body !! "email_address" = Some (JStr "not an address")
                  /\ sample_validate_email "not an address" = None)).
  { right. split; reflexivity. }
  split; [exact H|]. split; [reflexivity|].
  exact (invalid_update_rejected sample_uuid4 sample_validate_email
           5%N body "" "not an address" sample_world H).
Defined.

Lemma update_twice_same_witness :
  let body : gmap string json := {["feedback_content" := JStr "Even better"]} in
  let updated :=
    Feedback.mk (sample_uuid4 0) (Some "Even better") (Some "a@b.com") in
  let w' :=
    mkWorld
      [ (sample_uuid4 0, updated);
        (sample_uuid4 1,
         Feedback.mk (sample_uuid4 1) (Some "Fast delivery")
           (Some "sarah.smith@example.com")) ] 2 in
  app sample_uuid4 sample_validate_email
    (PUT_feedback (sample_uuid4 0) body) sample_world
  = (mkResponse 200 (FeedbackContent updated), w')
  /\ app sample_uuid4 sample_validate_email
       (PUT_feedback (sample_uuid4 0) body) w'
     = (mkResponse 200 (FeedbackContent updated), w').
Proof.
  intros body updated w'. split; [reflexivity|].
  apply (update_twice_same sample_uuid4 sample_validate_email
           (sample_uuid4 0) body sample_world).
  reflexivity.
Defined.

Lemma listing_after_update_witness :
  let body : gmap string json := {["feedback_content" := JStr "Even better"]} in
  let updated :=
    Feedback.mk (sample_uuid4 0) (Some "Even better") (Some "a@b.com") in
  let w' :=
    mkWorld
      [ (sample_uuid4 0, updated);
        (sample_uuid4 1,
         Feedback.mk (sample_uuid4 1) (Some "Fast delivery")
           (Some "sarah.smith@example.com")) ] 2 in
  store_consistent sample_world
  /\ app sample_uuid4 sample_validate_email
       (PUT_feedback (sample_uuid4 0) body) sample_world
     = (mkResponse 200 (FeedbackContent updated), w')
  /\ app sample_uuid4 sample_validate_email GET_feedbacks w'
     = (mkResponse 200
          (FeedbackListContent
             ((fun f => if N.eqb (Feedback.uuid f) (sample_uuid4 0)
                        then updated else f)
                <$> PyDict.values (feedbacks_db sample_world))),
        w').
Proof.
  intros body updated w'. split; [exact sample_world_consistent|].
  split; [reflexivity|].
  apply (listing_after_update sample_uuid4 sample_validate_email
           (sample_uuid4 0) body sample_world updated w'
           sample_world_consistent).
  reflexivity.
Defined.

Lemma store_ids_consistent_witness :
  let w0 :=
    mkWorld
      (imap (fun i dummy =>
               (sample_uuid4 i,
                Feedback.mk (sample_uuid4 i) (Some dummy.1) (Some dummy.2)))
         dummy_feedbacks)
      10 in
  let rs :=
    [ PUT_feedback (sample_uuid4 0) {["feedback_content" := JNull]};
      DELETE_feedback (sample_uuid4 3);
      POST_feedbacks
        (<["feedback_content" := JStr "Great!"]>
           {["email_address" := JStr "a@b.com"]}) ] in
  module_import sample_uuid4 sample_validate_email = Some w0
  /\ store_consistent (serve sample_uuid4 sample_validate_email rs w0).2.
Proof.
  intros w0 rs.
  assert (H : module_import sample_uuid4 sample_validate_email = Some w0)
    by (vm_compute; reflexivity).
  split; [exact H|].
  exact (store_ids_consistent sample_uuid4 sample_validate_email rs w0 H).
Defined.

Lemma constraints_hold_without_null_witness :
  let w0 :=
    mkWorld
      (imap (fun i dummy =>
               (sample_uuid4 i,
                Feedback.mk (sample_uuid4 i) (Some dummy.1) (Some dummy.2)))
         dummy_feedbacks)
      10 in
  let rs :=
    [ PUT_feedback (sample_uuid4 0) {["feedback_content" := JStr "Even better"]};
      DELETE_feedback (sample_uuid4 3);
      POST_feedbacks
        (<["feedback_content" := JStr "Great!"]>
           {["email_address" := JStr "a@b.com"]}) ] in
  (forall s s', sample_validate_email s = Some s' ->
                is_Some (sample_validate_email s'))
  /\ module_import sample_uuid4 sample_validate_email = Some w0
  /\ Forall (fun r => sets_null r = false) rs
  /\ store_valid sample_validate_email
       (serve sample_uuid4 sample_validate_email rs w0).2.
Proof.
  intros w0 rs.
  assert (H : module_import sample_uuid4 sample_validate_email = Some w0)
    by (vm_compute; reflexivity).
  assert (Hrs : Forall (fun r => sets_null r = false) rs)
    by (repeat constructor).
  split; [exact sample_validate_email_normalized|].
  split; [exact H|]. split; [exact Hrs|].
  exact (constraints_hold_without_null sample_uuid4 sample_validate_email rs w0
           sample_validate_email_normalized H Hrs).
Defined.

Lemma status_table_witness :
  let body : gmap string json :=
    <["feedback_content" := JStr "Great!"]> {["email_address" := JStr "a@b.com"]} in
  let s :=
    status
      (app sample_uuid4 sample_validate_email (POST_feedbacks body) sample_world).1
  in
  (forall s s', sample_validate_email s = Some s' ->
                is_Some (sample_validate_email s'))
  /\ (s = 201%N \/ s = 422%N).
Proof.
  intros body s. split; [exact sample_validate_email_normalized|].
  exact (status_table sample_uuid4 sample_validate_email (POST_feedbacks body)
           sample_world sample_validate_email_normalized).
Defined.

Lemma failed_request_is_skipped_witness :
  let rs1 := [DELETE_feedback (sample_uuid4 0)] in
  let r := GET_feedback (sample_uuid4 0) in
  let rs2 := [GET_feedbacks] in
  let serve := serve sample_uuid4 sample_validate_email in
  let w1 := (serve rs1 sample_world).2 in
  is_error (app sample_uuid4 sample_validate_email r w1).1 = true
  /\ status (app sample_uuid4 sample_validate_email r w1).1 <> 500%N
  /\ (serve (rs1 ++ r :: rs2)%list sample_world).1
     = ((serve rs1 sample_world).1
        ++ (app sample_uuid4 sample_validate_email r w1).1 :: (serve rs2 w1).1)%list
  /\ (serve (rs1 ++ rs2)%list sample_world).1
     = ((serve rs1 sample_world).1 ++ (serve rs2 w1).1)%list
  /\ (serve (rs1 ++ r :: rs2)%list sample_world).2
     = (serve (rs1 ++ rs2)%list sample_world).2.
Proof.
  intros rs1 r rs2 serve w1.
  split; [reflexivity|]. split; [discriminate|].
  apply (failed_request_is_skipped sample_uuid4 sample_validate_email
           rs1 r rs2 sample_world); [reflexivity | discriminate].
Defined.
